(** * oxycsbot: the tag-based chatbot framework [ChatBot] and its subclass

    A shallow embedding of [oxycsbot.py].  The file follows the source from
    the bottom up: the two library functions the framework relies on
    ([str.lower] and [re.search]), the [Counter] of tags, the methods of
    class [ChatBot], and last the concrete subclass [oxycsbot]. *)

From Stdlib Require Import Ascii String List NArith Bool Lia.
From stdpp Require Import base option list strings gmap.

Import ListNotations.
Local Open Scope string_scope.

(** ** Characters and [str.lower]

    A Python string is a sequence of code points; the embedding keeps the
    code points below 256 (ASCII and the Latin-1 supplement), which is what
    [Ascii.ascii] holds. *)

Module Char.

Definition code (c : ascii) : N := N_of_ascii c.

Definition between (lo hi : N) (c : ascii) : bool :=
  (lo <=? code c)%N && (code c <=? hi)%N.

(** Characters that have a distinct lower-case form in this range:
    A-Z, and the accented capitals except the multiplication sign. *)
Definition is_upper (c : ascii) : bool :=
  between 65 90 c || between 192 214 c || between 216 222 c.

Definition lower (c : ascii) : ascii :=
  if is_upper c then ascii_of_N (code c + 32) else c.

Definition is_digit (c : ascii) : bool := between 48 57 c.

(** [\w] of a [str] pattern: alphanumeric code points and the underscore. *)
Definition is_word (c : ascii) : bool :=
  is_digit c || between 65 90 c || between 97 122 c || (code c =? 95)%N
  || (code c =? 170)%N || between 178 179 c || (code c =? 181)%N
  || between 185 186 c || between 188 190 c
  || between 192 214 c || between 216 246 c || between 248 255 c.

(** [\s] of a [str] pattern. *)
Definition is_space (c : ascii) : bool :=
  between 9 13 c || between 28 32 c || (code c =? 133)%N || (code c =? 160)%N.

Definition is_newline (c : ascii) : bool := (code c =? 10)%N.

(** ASCII letters and digits: after a backslash these are never plain
    literals in a pattern. *)
Definition is_ascii_alnum (c : ascii) : bool :=
  is_digit c || between 65 90 c || between 97 122 c.

End Char.

(** [message.lower()] *)
Fixpoint lower (s : string) : string :=
  match s with
  | EmptyString => EmptyString
  | String c s' => String (Char.lower c) (lower s')
  end.

(** ** Regular expressions: the part of [re] that [_get_tags] can reach

    [_get_tags] pastes each phrase between two [\b] and hands the result to
    [re.search], so a phrase is read as a pattern.  The embedding covers
    literals, [.], [^], [$], the escapes [\b \B \A \Z \w \W \d \D \s \S],
    escaped punctuation, groups, [|] and the quantifiers [* + ?] with their
    lazy forms.  Everything else (sets, counted repeats, [(?...)]
    extensions, possessive quantifiers, back-references and the remaining
    letter escapes) is reported as [NotModelled] rather than guessed.

    [_get_tags] only asks whether a match exists, so the matcher works with
    derivatives; [Matches] says what a pattern means, and the matcher is
    proved to find exactly the matches in [search_finds_matches]. *)

Module Re.

Inductive assertion := WordBoundary | NotWordBoundary | Bos | Eos | Dollar.

Inductive category := Word | Digit | Space.

Inductive regex :=
| Fail
| Eps
| Lit (c : ascii)
| Dot
| Cat (k : category) (negated : bool)
| At (a : assertion)
| Seq (r1 r2 : regex)
| Alt (r1 r2 : regex)
| Star (r : regex).

Definition Opt (r : regex) : regex := Alt r Eps.
Definition Plus (r : regex) : regex := Seq r (Star r).

(** *** Parsing a pattern *)

Inductive compiled :=
| Compiled (r : regex)
| Error (msg : string)        (* re.error *)
| NotModelled.

(** What the last parsed item was, which decides what a following
    quantifier means. *)
Inductive kind := Plain | Greedy | Lazy | Assertion.

Record frame := Frame {
  alts : list regex;             (* finished branches of [|], last first *)
  items : list (regex * kind)    (* the current branch, last first *)
}.

Definition empty_frame : frame := Frame [] [].

Definition seq_of (its : list (regex * kind)) : regex :=
  fold_left (fun acc it => Seq (fst it) acc) its Eps.

Definition frame_regex (f : frame) : regex :=
  fold_left (fun acc r => Alt r acc) (alts f) (seq_of (items f)).

Definition push (f : frame) (r : regex) (k : kind) : frame :=
  Frame (alts f) ((r, k) :: items f).

Definition escape (c : ascii) : option (regex * kind) :=
  if Ascii.eqb c "b" then Some (At WordBoundary, Assertion)
  else if Ascii.eqb c "B" then Some (At NotWordBoundary, Assertion)
  else if Ascii.eqb c "A" then Some (At Bos, Assertion)
  else if Ascii.eqb c "Z" then Some (At Eos, Assertion)
  else if Ascii.eqb c "w" then Some (Cat Word false, Plain)
  else if Ascii.eqb c "W" then Some (Cat Word true, Plain)
  else if Ascii.eqb c "d" then Some (Cat Digit false, Plain)
  else if Ascii.eqb c "D" then Some (Cat Digit true, Plain)
  else if Ascii.eqb c "s" then Some (Cat Space false, Plain)
  else if Ascii.eqb c "S" then Some (Cat Space true, Plain)
  else if Char.is_ascii_alnum c then None
  else Some (Lit c, Plain).

Definition quantify (q : ascii) (r : regex) : regex :=
  if Ascii.eqb q "*" then Star r
  else if Ascii.eqb q "+" then Plus r
  else Opt r.

Definition is_quantifier (c : ascii) : bool :=
  Ascii.eqb c "*" || Ascii.eqb c "+" || Ascii.eqb c "?".

Fixpoint parse (s : list ascii) (cur : frame) (stack : list frame) : compiled :=
  match s with
  | [] =>
      match stack with
      | [] => Compiled (frame_regex cur)
      | _ :: _ => Error "missing ), unterminated subpattern"
      end
  | c :: s' =>
      if Ascii.eqb c "\" then
        match s' with
        | [] => Error "bad escape (end of pattern)"
        | e :: s'' =>
            match escape e with
            | Some (r, k) => parse s'' (push cur r k) stack
            | None => NotModelled
            end
        end
      else if Ascii.eqb c "(" then
        match s' with
        | "?"%char :: _ => NotModelled
        | _ => parse s' empty_frame (cur :: stack)
        end
      else if Ascii.eqb c ")" then
        match stack with
        | [] => Error "unbalanced parenthesis"
        | f :: stack' => parse s' (push f (frame_regex cur) Plain) stack'
        end
      else if Ascii.eqb c "|" then
        parse s' (Frame (seq_of (items cur) :: alts cur) []) stack
      else if is_quantifier c then
        match items cur with
        | [] => Error "nothing to repeat"
        | (r, Assertion) :: _ => Error "nothing to repeat"
        | (r, Plain) :: its =>
            parse s' (Frame (alts cur) ((quantify c r, Greedy) :: its)) stack
        | (r, Greedy) :: its =>
            if Ascii.eqb c "?" then
              parse s' (Frame (alts cur) ((r, Lazy) :: its)) stack
            else if Ascii.eqb c "+" then NotModelled
            else Error "multiple repeat"
        | (r, Lazy) :: _ => Error "multiple repeat"
        end
      else if Ascii.eqb c "." then parse s' (push cur Dot Plain) stack
      else if Ascii.eqb c "^" then parse s' (push cur (At Bos) Assertion) stack
      else if Ascii.eqb c "$" then parse s' (push cur (At Dollar) Assertion) stack
      else if Ascii.eqb c "[" || Ascii.eqb c "{" then NotModelled
      else parse s' (push cur (Lit c) Plain) stack
  end.

Definition compile (pattern : string) : compiled :=
  parse (list_ascii_of_string pattern) empty_frame [].

(** *** Matching

    An assertion looks at the character before the position ([prev]) and
    at the rest of the subject. *)

Definition word_at (o : option ascii) : bool :=
  match o with Some c => Char.is_word c | None => false end.

Definition holds (a : assertion) (prev : option ascii) (rest : list ascii) : bool :=
  match a with
  | WordBoundary => xorb (word_at prev) (word_at (head rest))
  | NotWordBoundary => negb (xorb (word_at prev) (word_at (head rest)))
  | Bos => match prev with None => true | Some _ => false end
  | Eos => match rest with [] => true | _ => false end
  | Dollar =>
      match rest with
      | [] => true
      | [c] => Char.is_newline c
      | _ => false
      end
  end.

Definition in_category (k : category) (c : ascii) : bool :=
  match k with
  | Word => Char.is_word c
  | Digit => Char.is_digit c
  | Space => Char.is_space c
  end.

(** Does [r] match the empty string at this position? *)
Fixpoint nullable (prev : option ascii) (rest : list ascii) (r : regex) : bool :=
  match r with
  | Fail | Lit _ | Dot | Cat _ _ => false
  | Eps | Star _ => true
  | At a => holds a prev rest
  | Seq r1 r2 => nullable prev rest r1 && nullable prev rest r2
  | Alt r1 r2 => nullable prev rest r1 || nullable prev rest r2
  end.

(** What is left of [r] once it has consumed [c], the head of the subject
    [c :: rest], at a position preceded by [prev]. *)
Fixpoint deriv (prev : option ascii) (c : ascii) (rest : list ascii) (r : regex) : regex :=
  match r with
  | Fail | Eps | At _ => Fail
  | Lit c' => if Ascii.eqb c c' then Eps else Fail
  | Dot => if Char.is_newline c then Fail else Eps
  | Cat k negated => if xorb negated (in_category k c) then Eps else Fail
  | Seq r1 r2 =>
      if nullable prev (c :: rest) r1
      then Alt (Seq (deriv prev c rest r1) r2) (deriv prev c rest r2)
      else Seq (deriv prev c rest r1) r2
  | Alt r1 r2 => Alt (deriv prev c rest r1) (deriv prev c rest r2)
  | Star r1 => Seq (deriv prev c rest r1) (Star r1)
  end.

(** [r] matches some prefix of [s]. *)
Fixpoint match_prefix (r : regex) (prev : option ascii) (s : list ascii) : bool :=
  nullable prev s r ||
  match s with
  | [] => false
  | c :: s' => match_prefix (deriv prev c s' r) (Some c) s'
  end.

(** [r] matches somewhere in [s]: the scan of [re.search]. *)
Fixpoint scan (r : regex) (prev : option ascii) (s : list ascii) : bool :=
  match_prefix r prev s ||
  match s with
  | [] => false
  | c :: s' => scan r (Some c) s'
  end.

(** The number of positions of [s] at which a match of [r] starts. *)
Fixpoint occurrences (r : regex) (prev : option ascii) (s : list ascii) : nat :=
  (if match_prefix r prev s then 1 else 0) +
  match s with
  | [] => 0
  | c :: s' => occurrences r (Some c) s'
  end.

Inductive searched :=
| Found (b : bool)            (* a match object, or None *)
| Raised (msg : string)       (* re.error *)
| Unknown.                    (* the pattern is outside the fragment *)

(** [re.search(pattern, string)], seen as a truth value. *)
Definition search (pattern subject : string) : searched :=
  match compile pattern with
  | Compiled r => Found (scan r None (list_ascii_of_string subject))
  | Error msg => Raised msg
  | NotModelled => Unknown
  end.

(** *** What a pattern means

    The character in front of the position once [w] has been read after
    [prev]. *)
Definition last_read (prev : option ascii) (w : list ascii) : option ascii :=
  fold_left (fun _ c => Some c) w prev.

(** [Matches r prev w rest]: the pattern [r] matches the piece [w] of the
    subject, where [prev] is the character in front of [w] and [rest] is
    what follows it. *)
Inductive Matches : regex -> option ascii -> list ascii -> list ascii -> Prop :=
| MEps p q : Matches Eps p [] q
| MLit c p q : Matches (Lit c) p [c] q
| MDot c p q : Char.is_newline c = false -> Matches Dot p [c] q
| MCat k negated c p q :
    xorb negated (in_category k c) = true -> Matches (Cat k negated) p [c] q
| MAt a p q : holds a p q = true -> Matches (At a) p [] q
| MSeq r1 r2 p w1 w2 q :
    Matches r1 p w1 (w2 ++ q) ->
    Matches r2 (last_read p w1) w2 q ->
    Matches (Seq r1 r2) p (w1 ++ w2) q
| MAltL r1 r2 p w q : Matches r1 p w q -> Matches (Alt r1 r2) p w q
| MAltR r1 r2 p w q : Matches r2 p w q -> Matches (Alt r1 r2) p w q
| MStarNil r p q : Matches (Star r) p [] q
| MStarApp r p w1 w2 q :
    Matches r p w1 (w2 ++ q) ->
    Matches (Star r) (last_read p w1) w2 q ->
    Matches (Star r) p (w1 ++ w2) q.

End Re.

(** ** Exceptions and results *)

Inductive exn :=
| AssertionError (msg : string)
| AttributeError (name : string)
| IndexError (msg : string)
| TypeError (msg : string)
| ReError (msg : string)              (* re.error *)
| OtherError (cls msg : string)       (* whatever else a hook raises *)
| OutsideModel.                       (* not a Python exception: the run
                                         left the modelled part of [re] *)

Inductive result (A : Type) :=
| Ok (a : A)
| Err (e : exn).
Arguments Ok {A} a.
Arguments Err {A} e.

(** The double-quote character, for the messages that contain one. *)
Definition dquote : string := String "034" EmptyString.

(** [' '.join(parts)] *)
Fixpoint join_spaces (parts : list string) : string :=
  match parts with
  | [] => EmptyString
  | [p] => p
  | p :: rest => p +:+ " " +:+ join_spaces rest
  end.

(** ** The TAGS dictionary and the Counter of tags *)

(** A value of the TAGS dictionary as Python sees it at run time. *)
Inductive tagval :=
| Str (s : string)
| PyList (l : list string)
| PyTuple (l : list string)
| Obj (cls : string).     (* any other object, of class [cls]; not iterable *)

(** A [dict] keeps its keys in insertion order; it is held as the list of
    its items, keys distinct. *)
Abbreviation dict V := (list (string * V)).

(** [d[k] = v] *)
Fixpoint dict_set {V} (k : string) (v : V) (d : dict V) : dict V :=
  match d with
  | [] => [(k, v)]
  | (k', v') :: d' =>
      if String.eqb k k' then (k', v) :: d' else (k', v') :: dict_set k v d'
  end.

(** A dictionary display [{k1: v1, k2: v2, ...}]: the items are stored left
    to right, a repeated key keeps its place and takes the later value. *)
Definition dict_display {V} (kvs : list (string * V)) : dict V :=
  fold_left (fun d kv => dict_set (fst kv) (snd kv) d) kvs [].

(** [collections.Counter]: a missing tag counts zero. *)
Abbreviation Counter := (gmap string nat).

Definition count (counter : Counter) (tag : string) : nat :=
  default 0 (counter !! tag).

Definition counter_incr (counter : Counter) (tag : string) : Counter :=
  <[tag := S (count counter tag)]> counter.

Definition chars_of (s : string) : list string :=
  map (fun c => String c EmptyString) (list_ascii_of_string s).

(** [counter.update(tags)]: one more for every element of the iterable. *)
Definition counter_update (counter : Counter) (tags : tagval) : result Counter :=
  match tags with
  | PyList l | PyTuple l => Ok (fold_left counter_incr l counter)
  | Str s => Ok (fold_left counter_incr (chars_of s) counter)
  | Obj cls =>
      Err (TypeError ("'" +:+ cls +:+ "' object is not iterable"))
  end.

(** The pattern [r'\b' + phrase.lower() + r'\b']. *)
Definition phrase_pattern (phrase : string) : string :=
  "\b" +:+ lower phrase +:+ "\b".

(** The loop of [_get_tags] over [TAGS.items()]. *)
Fixpoint tag_items (msg : string) (entries : dict tagval) (counter : Counter)
  : result Counter :=
  match entries with
  | [] => Ok counter
  | (phrase, tags) :: rest =>
      match Re.search (phrase_pattern phrase) msg with
      | Re.Found true =>
          match counter_update counter tags with
          | Ok counter' => tag_items msg rest counter'
          | Err e => Err e
          end
      | Re.Found false => tag_items msg rest counter
      | Re.Raised m => Err (ReError m)
      | Re.Unknown => Err OutsideModel
      end
  end.

(** ** The engine's state

    The attributes of an instance that the methods read: the two class
    attributes, the default and the current state, and the console.  The
    constructor also stores an empty dict in [self.tags], and [oxycsbot]
    stores None in [self.benefits]; no method reads either, so they are
    left out.  The read-print loop [chat] is not part of the embedding. *)

Record ChatBot := mkChatBot {
  STATES : list string;           (* class attribute *)
  TAGS : dict tagval;             (* class attribute, a shared dict *)
  default_state : string;
  state : string;
  stdout : list string            (* the lines printed so far *)
}.

Definition set_state (s : string) (self : ChatBot) : ChatBot :=
  mkChatBot (STATES self) (TAGS self) (default_state self) s (stdout self).

Definition set_TAGS (t : dict tagval) (self : ChatBot) : ChatBot :=
  mkChatBot (STATES self) t (default_state self) (state self) (stdout self).

Definition print_line (line : string) (self : ChatBot) : ChatBot :=
  mkChatBot (STATES self) (TAGS self) (default_state self) (state self)
            (stdout self ++ [line])%list.

(** A method call either returns a value or raises; both leave an engine
    behind. *)
Inductive outcome (A : Type) :=
| Return (a : A) (self : ChatBot)
| Raise (e : exn) (self : ChatBot).
Arguments Return {A} a self.
Arguments Raise {A} e self.

Definition M (A : Type) : Type := ChatBot -> outcome A.

Definition ret {A} (a : A) : M A := fun self => Return a self.
Definition raise {A} (e : exn) : M A := fun self => Raise e self.
Definition bind {A B} (m : M A) (k : A -> M B) : M B :=
  fun self =>
    match m self with
    | Return a self' => k a self'
    | Raise e self' => Raise e self'
    end.
Definition get : M ChatBot := fun self => Return self self.
Definition modify (f : ChatBot -> ChatBot) : M unit := fun self => Return tt (f self).
Definition lift {A} (r : result A) : M A :=
  match r with Ok a => ret a | Err e => raise e end.

Declare Scope chat_scope.
Delimit Scope chat_scope with chat.
Notation "x <- m ;; k" := (bind m (fun x => k))
  (at level 100, m at next level, right associativity) : chat_scope.
Notation "m ;; k" := (bind m (fun _ => k))
  (at level 100, right associativity) : chat_scope.
Local Open Scope chat_scope.

(** [assert cond, msg] *)
Definition assert (cond : bool) (msg : string) : M unit :=
  if cond then ret tt else raise (AssertionError msg).

(** [x in l] for a list of strings. *)
Definition mem (x : string) (l : list string) : bool :=
  existsb (String.eqb x) l.

(** The state left behind, whichever way the call ended. *)
Definition after {A} (o : outcome A) : ChatBot :=
  match o with Return _ self | Raise _ self => self end.

(** ** Class [ChatBot]

    The subclass supplies the hooks.  [getattr(self, prefix + name)] finds
    them by name; the three prefixes start with different letters and no
    attribute of [ChatBot] itself starts with any of them, so the lookup is
    a lookup in one of three tables keyed by the part after the prefix. *)

Definition entry_hook := M string.
Definition response_hook := string -> Counter -> M string.
Definition completion_hook := M string.

Section ChatBot.

Variable on_enter_ : string -> option entry_hook.
Variable respond_from_ : string -> option response_hook.
Variable finish_ : string -> option completion_hook.

Definition getattr {A} (table : string -> option A) (prefix name : string) : M A :=
  match table name with
  | Some method => ret method
  | None => raise (AttributeError (prefix +:+ name))
  end.

(** [hasattr(self, prefix + '_' + state)] for the two prefixes that
    [_check_states] asks about. *)
Definition hasattr (prefix st : string) : bool :=
  if String.eqb prefix "on_enter" then bool_decide (is_Some (on_enter_ st))
  else bool_decide (is_Some (respond_from_ st)).

Definition missing_hook_warning (st prefix : string) : string :=
  join_spaces [
    "WARNING:";
    "State " +:+ dquote +:+ st +:+ dquote +:+ " is defined";
    "but has no response function self." +:+ prefix +:+ "_" +:+ st
  ].

Definition check_prefix (st prefix : string) : M unit :=
  if hasattr prefix st then ret tt
  else modify (print_line (missing_hook_warning st prefix)).

Fixpoint for_each {A} (f : A -> M unit) (l : list A) : M unit :=
  match l with
  | [] => ret tt
  | x :: l' => f x ;; for_each f l'
  end.

Definition _check_states : M unit :=
  self <- get ;;
  for_each (fun st =>
    let prefixes :=
      ((if String.eqb st (default_state self) then [] else ["on_enter"])
       ++ ["respond_from"])%list in
    for_each (check_prefix st) prefixes) (STATES self).

Definition bad_tags_message (cls : string) : string :=
  join_spaces [
    "ERROR:";
    "Expected tags for {phrase} to be str or List[str]";
    "but got " +:+ cls
  ].

(** The loop of [_check_tags]: the dictionary as the loop leaves it, and
    the assertion message if an entry stopped it.  Entries before the
    offending one have already been rewritten. *)
Fixpoint check_entries (entries : dict tagval) : dict tagval * option string :=
  match entries with
  | [] => ([], None)
  | (phrase, Str s) :: rest =>
      let (rest', failed) := check_entries rest in
      ((phrase, PyList [s]) :: rest', failed)
  | (phrase, Obj cls) :: rest =>
      ((phrase, Obj cls) :: rest, Some (bad_tags_message cls))
  | (phrase, tags) :: rest =>
      let (rest', failed) := check_entries rest in
      ((phrase, tags) :: rest', failed)
  end.

Definition _check_tags : M unit :=
  self <- get ;;
  let (table, failed) := check_entries (TAGS self) in
  modify (set_TAGS table) ;;
  match failed with
  | None => ret tt
  | Some msg => raise (AssertionError msg)
  end.

Definition go_to_state (st : string) : M string :=
  self <- get ;;
  assert (mem st (STATES self))
    ("ERROR: state " +:+ dquote +:+ st +:+ " is not defined") ;;
  assert (negb (String.eqb st (default_state self)))
    (join_spaces [
      "WARNING:";
      "do not call `go_to_state` on the default state "
        +:+ default_state self +:+ ";";
      "use `finish` instead"
    ]) ;;
  on_enter_method <- getattr on_enter_ "on_enter_" st ;;
  response <- on_enter_method ;;
  modify (set_state st) ;;
  ret response.

Definition _get_tags (message : string) : M Counter :=
  self <- get ;;
  lift (tag_items (lower message) (TAGS self) ∅).

Definition respond (message : string) : M string :=
  self <- get ;;
  respond_method <- getattr respond_from_ "respond_from_" (state self) ;;
  tags <- _get_tags message ;;
  respond_method message tags.

Definition finish (manner : string) : M string :=
  response <- (method <- getattr finish_ "finish_" manner ;; method) ;;
  self <- get ;;
  modify (set_state (default_state self)) ;;
  ret response.

(** What the constructor leaves: an engine, or the exception that stopped
    it together with the lines printed up to then. *)
Inductive constructed :=
| Built (self : ChatBot)
| Refused (e : exn) (console : list string).

Definition absent_default_warning (default first : string) : string :=
  join_spaces [
    "WARNING:";
    "The default state " +:+ default +:+ " is listed as a state.";
    "Perhaps you mean " +:+ first +:+ "?"
  ].

(** [ChatBot.__init__] for a class whose attributes are [cls_STATES] and
    [cls_TAGS], started with [console] already printed. *)
Definition __init__ (cls_STATES : list string) (cls_TAGS : dict tagval)
    (console : list string) (default : string) : constructed :=
  let start (console' : list string) :=
    let self := mkChatBot cls_STATES cls_TAGS default default console' in
    match (_check_states ;; _check_tags) self with
    | Return _ self' => Built self'
    | Raise e self' => Refused e (stdout self')
    end in
  if mem default cls_STATES then start console
  else
    match cls_STATES with
    | [] => Refused (IndexError "list index out of range") console
    | first :: _ =>
        start (console ++ [absent_default_warning default first])%list
    end.

End ChatBot.

(** ** Class [oxycsbot] *)

(** [name in tags] for a Counter. *)
Definition contains (tags : Counter) (name : string) : bool :=
  bool_decide (is_Some (tags !! name)).

(** The methods of a class with a common prefix, found by the rest of
    their name. *)
Fixpoint method {A} (defs : list (string * A)) (name : string) : option A :=
  match defs with
  | [] => None
  | (n, body) :: defs' => if String.eqb name n then Some body else method defs' name
  end.

Module oxycsbot.

Definition STATES : list string := [
  "waiting";
  "thoughts_1";
  "thoughts_2";
  "increase_reason_1";
  "increase_reason_2";
  "unknown_benefit_1";
  "unknown_benefit_2"
].

Definition TAGS : dict tagval := dict_display [
  (* hello *)
  ("Hello", Str "hello");
  ("hey", Str "hello");
  ("hi", Str "hello");
  ("what'sup", Str "hello");
  ("whats up", Str "hello");
  ("whats up?", Str "hello");
  ("hello", Str "hello");
  (* generic *)
  ("thanks", Str "thanks");
  ("okay", Str "success");
  ("bye", Str "success");
  ("yes", Str "yes");
  ("yep", Str "yes");
  ("no", Str "no");
  ("nope", Str "no");
  (* positive tags *)
  ("ok", Str "yes");
  ("okay", Str "yes");
  ("sounds good", Str "yes");
  ("yes", Str "yes");
  ("all right", Str "yes");
  ("very well", Str "yes");
  ("of course", Str "yes");
  ("by all means", Str "yes");
  ("sure", Str "yes");
  ("certainly", Str "yes");
  ("absolutely", Str "yes");
  ("indeed", Str "yes");
  ("right", Str "yes");
  ("affirmative", Str "yes");
  ("agreed", Str "yes");
  (* negative tags *)
  ("no", Str "no");
  ("nope", Str "no");
  ("absolutely not", Str "no");
  ("most certainly not", Str "no");
  ("of course not", Str "no");
  ("under no circumstances", Str "no");
  ("by no means", Str "no");
  ("not at all", Str "no");
  ("negative", Str "no");
  ("never", Str "no");
  ("not really", Str "no")
].

(** The "finish" functions. *)
Definition finish_ : string -> option completion_hook := method [
  ("confused", ret "I am sorry I do not understand what you are saying. Could we please get back to the topic at hand?");
  ("hello", ret "I am sorry I do not understand. Can you please say hello");
  ("success", ret "Great, thank you so much!");
  ("fail", ret "I am sorry, I still do not understand what you are trying to say. Maybe we can discuss this again at a later point.");
  ("reject", ret "Ok, I understand. Thank you for your time.")
].

Definition finish : string -> M string := finish finish_.

Definition on_enter_ : string -> option entry_hook := method [
  ("thoughts_1", ret "Hello boss, I would like to discuss increasing my salary. Can I discuss this with you?");
  ("increase_reason_1", ret "I believe that I deserve an increase in salary because for the past year I have consistently submit top quality work benefitting the company image and stock value. So what do you think?");
  ("thoughts_2", ret "Ok, then can I please discuss more paid time off?");
  ("increase_reason_2", ret "I believe I have worked without taking any paid time off for the past 6 months and produced top quality work consistently so I think a little break would be nice. What do you think about this?");
  ("unknown_benefit_1", finish "confused");
  ("unknown_benefit_2", finish "confused")
].

Definition go_to_state : string -> M string := go_to_state on_enter_.

Definition respond_from_ : string -> option response_hook := method [
  ("waiting", fun message tags =>
     if contains tags "hello" then go_to_state "thoughts_1"
     else finish "hello");
  ("thoughts_1", fun message tags =>
     if contains tags "yes" then go_to_state "increase_reason_1"
     else if contains tags "no" then go_to_state "thoughts_2"
     else go_to_state "unknown_benefit_1");
  ("increase_reason_1", fun message tags =>
     if contains tags "yes" then finish "success"
     else if contains tags "no" then go_to_state "thoughts_2"
     else go_to_state "unknown_benefit_1");
  ("thoughts_2", fun message tags =>
     if contains tags "yes" then go_to_state "increase_reason_2"
     else if contains tags "no" then finish "reject"
     else go_to_state "unknown_benefit_2");
  ("increase_reason_2", fun message tags =>
     if contains tags "yes" then finish "success"
     else if contains tags "no" then finish "reject"
     else go_to_state "unknown_benefit_2");
  ("unknown_benefit_1", fun message tags =>
     if contains tags "yes" then go_to_state "increase_reason_1"
     else finish "fail");
  ("unknown_benefit_2", fun message tags =>
     if contains tags "yes" then go_to_state "increase_reason_2"
     else finish "fail")
].

Definition respond : string -> M string := respond respond_from_.

(** [oxycsbot()] *)
Definition new (console : list string) : constructed :=
  __init__ on_enter_ respond_from_ STATES TAGS console "waiting".

(** The engine [oxycsbot()] returns when nothing was printed before: the
    constructor has turned every tag of TAGS into a one-element list. *)
Definition instance : ChatBot :=
  mkChatBot STATES (map (fun kv => (fst kv, PyList [snd kv])) [
    ("Hello", "hello"); ("hey", "hello"); ("hi", "hello");
    ("what'sup", "hello"); ("whats up", "hello"); ("whats up?", "hello");
    ("hello", "hello"); ("thanks", "thanks"); ("okay", "yes");
    ("bye", "success"); ("yes", "yes"); ("yep", "yes"); ("no", "no");
    ("nope", "no"); ("ok", "yes"); ("sounds good", "yes");
    ("all right", "yes"); ("very well", "yes"); ("of course", "yes");
    ("by all means", "yes"); ("sure", "yes"); ("certainly", "yes");
    ("absolutely", "yes"); ("indeed", "yes"); ("right", "yes");
    ("affirmative", "yes"); ("agreed", "yes"); ("absolutely not", "no");
    ("most certainly not", "no"); ("of course not", "no");
    ("under no circumstances", "no"); ("by no means", "no");
    ("not at all", "no"); ("negative", "no"); ("never", "no");
    ("not really", "no")
  ]) "waiting" "waiting" [].

End oxycsbot.

(** ** A subclass whose entry hook makes a transition and then fails

    <<
    class Stuck(ChatBot):
        STATES = ['idle', 'busy', 'stuck']
        def finish_done(self): return 'bye'
        def on_enter_stuck(self):
            self.finish('done')
            return self.finish('missing')
    >>
    Entry hooks that call [finish] are what [oxycsbot] itself has for its
    two [unknown_benefit] states. *)

Module Stuck.

Definition STATES : list string := ["idle"; "busy"; "stuck"].

Definition finish_ : string -> option completion_hook := method [
  ("done", ret "bye")
].

Definition finish : string -> M string := finish finish_.

Definition on_enter_ : string -> option entry_hook := method [
  ("stuck", finish "done" ;; finish "missing")
].

Definition go_to_state : string -> M string := go_to_state on_enter_.

(** An engine of this class in state [busy]. *)
Definition busy : ChatBot := mkChatBot STATES [] "idle" "busy" [].

End Stuck.

(** ** Notions used to state the properties *)

(** [b] is [a] after some more lines were printed. *)
Definition printed_more (a b : ChatBot) : Prop :=
  STATES a = STATES b /\ TAGS a = TAGS b /\
  default_state a = default_state b /\ state a = state b /\
  exists lines, stdout b = (stdout a ++ lines)%list.

(** How many times [counter.update(tags)] adds one to [tag]. *)
Definition increments (tags : tagval) (tag : string) : nat :=
  match tags with
  | PyList l | PyTuple l => count_occ string_dec l tag
  | Str s => count_occ string_dec (chars_of s) tag
  | Obj _ => 0
  end.

(** What the items of the table add to [tag] for the message [msg]: the
    increments of the entries whose phrase is found. *)
Fixpoint tally (msg : string) (entries : dict tagval) (tag : string) : nat :=
  match entries with
  | [] => 0
  | (phrase, tags) :: rest =>
      match Re.search (phrase_pattern phrase) msg with
      | Re.Found true => increments tags tag
      | _ => 0
      end + tally msg rest tag
  end.

(** The shapes of a TAGS value that [_check_tags] tells apart. *)
Definition is_sequence (tags : tagval) : Prop :=
  exists l, tags = PyList l \/ tags = PyTuple l.

Definition malformed (tags : tagval) : Prop :=
  exists cls, tags = Obj cls.

(** A bare string becomes a one-element list; the rest stays. *)
Definition normalised (tags : tagval) : tagval :=
  match tags with
  | Str s => PyList [s]
  | other => other
  end.

(** A character that has no special meaning anywhere in a pattern. *)
Definition plain_char (c : ascii) : bool :=
  negb (existsb (Ascii.eqb c)
          (list_ascii_of_string "\()|*+?.^$[{")).

(** The pattern that reads the characters [l] one after the other and
    goes on with [k]. *)
Fixpoint literals (l : list ascii) (k : Re.regex) : Re.regex :=
  match l with
  | [] => k
  | c :: l' => Re.Seq (Re.Lit c) (literals l' k)
  end.

(** The reading of the phrases that the documentation gives: "words/phrases"
    that "match a message".  The phrase is in the message, character for
    character, with a word boundary in front of its first character and one
    behind its last; both sides are lower-cased first. *)
Module Literal.

(** What is left of [s] after the prefix [p], if [s] starts with [p]. *)
Fixpoint strip_prefix (p s : list ascii) : option (list ascii) :=
  match p with
  | [] => Some s
  | c :: p' =>
      match s with
      | [] => None
      | d :: s' => if Ascii.eqb c d then strip_prefix p' s' else None
      end
  end.

Definition boundary (prev next : option ascii) : bool :=
  xorb (Re.word_at prev) (Re.word_at next).

Definition occurs_at (p : list ascii) (prev : option ascii) (s : list ascii) : bool :=
  boundary prev (head s) &&
  match strip_prefix p s with
  | Some rest => boundary (Re.last_read prev p) (head rest)
  | None => false
  end.

Fixpoint occurs_from (p : list ascii) (prev : option ascii) (s : list ascii) : bool :=
  occurs_at p prev s ||
  match s with
  | [] => false
  | c :: s' => occurs_from p (Some c) s'
  end.

Definition phrase_occurs (phrase message : string) : bool :=
  occurs_from (list_ascii_of_string (lower phrase)) None
              (list_ascii_of_string (lower message)).

End Literal.

(** ** The read-print loop [chat] and the entry point of the script

    The lines the user types are the list [stdin]; [input] fails with
    EOFError when it is empty.  [input('> ')] writes its prompt, which is
    kept as an entry of its own in [stdout] although no newline follows
    it.  A hook returns a string in this embedding, so the branch of
    [chat] for a None response is never taken and is left out.  The
    interrupt key is not modelled; an exception is caught by the
    [except] clause when its class is one of the two named there. *)

(** [message.lower() not in ('exit', 'quit')], negated. *)
Definition is_exit (message : string) : bool :=
  mem (lower message) ["exit"; "quit"].

(** [except (EOFError, KeyboardInterrupt)] *)
Definition interrupts (e : exn) : bool :=
  match e with
  | OtherError cls _ => mem cls ["EOFError"; "KeyboardInterrupt"]
  | _ => false
  end.

(** How a call of [chat] ends, with the engine it leaves and the lines of
    [stdin] it has not read. *)
Inductive ending :=
| Stopped (self : ChatBot) (unread : list string)      (* the loop ended *)
| SystemExit (self : ChatBot) (unread : list string)   (* print(); exit() *)
| Uncaught (e : exn) (self : ChatBot) (unread : list string).

Definition show_prompt (prompt : string) (self : ChatBot) : ChatBot :=
  print_line prompt self.

Section Chat.

Variable respond_from_ : string -> option response_hook.
Variable class_name : string.       (* self.__class__.__name__ *)

Fixpoint chat (stdin : list string) (self : ChatBot) : ending :=
  match stdin with
  | [] => SystemExit (print_line EmptyString (show_prompt "> " self)) []
  | message :: rest =>
      let prompted := show_prompt "> " self in
      if is_exit message then Stopped prompted rest
      else
        match respond respond_from_ message (print_line EmptyString prompted) with
        | Return response answered =>
            chat rest
              (print_line EmptyString
                 (print_line (class_name +:+ ": " +:+ response) answered))
        | Raise e failed =>
            if interrupts e then SystemExit (print_line EmptyString failed) rest
            else Uncaught e failed rest
        end
  end.

End Chat.

(** [oxycsbot().chat()], run with [console] already printed (the line of
    [print(sys.version)]). *)
Inductive run :=
| Ran (e : ending)
| NotBuilt (e : exn) (console : list string).

Definition main (console stdin : list string) : run :=
  match oxycsbot.new console with
  | Built self => Ran (chat oxycsbot.respond_from_ "oxycsbot" stdin self)
  | Refused e console' => NotBuilt e console'
  end.

(** ** Further notions used to state the properties *)

(** The phrase can be read as a pattern of the modelled part of [re]. *)
Definition compiles (phrase : string) : bool :=
  match Re.compile (phrase_pattern phrase) with
  | Re.Compiled _ => true
  | _ => false
  end.

Definition sequence (tags : tagval) : bool :=
  match tags with
  | PyList _ | PyTuple _ => true
  | _ => false
  end.

(** An item of TAGS that [_get_tags] handles without raising. *)
Definition usable (kv : string * tagval) : bool :=
  compiles (fst kv) && sequence (snd kv).

(** Every key of the Counter counts at least one. *)
Definition positive (counter : Counter) : Prop :=
  forall tag n, counter !! tag = Some n -> 0 < n.

(** An engine of class [oxycsbot] in state [st] with [out] on the
    console. *)
Definition oxycsbot_in (st : string) (out : list string) : ChatBot :=
  mkChatBot oxycsbot.STATES (TAGS oxycsbot.instance) "waiting" st out.

(** * Properties *)

(** ** Small facts about the building blocks *)

Lemma mem_In (x : string) (l : list string) : mem x l = true <-> In x l.
Proof.
  unfold mem. rewrite existsb_exists. split.
  - intros (y & Hy & Heq). apply String.eqb_eq in Heq. now subst.
  - intros H. exists x. split; [assumption | apply String.eqb_refl].
Qed.

Lemma mem_false (x : string) (l : list string) : mem x l = false <-> ~ In x l.
Proof.
  rewrite <- mem_In. destruct (mem x l); split; intros; congruence.
Qed.

Lemma state_set_state (s : string) (self : ChatBot) : state (set_state s self) = s.
Proof. reflexivity. Qed.

Lemma default_state_set_state (s : string) (self : ChatBot) :
  default_state (set_state s self) = default_state self.
Proof. reflexivity. Qed.

(** Printing touches the console only. *)
Lemma printed_more_refl (a : ChatBot) : printed_more a a.
Proof.
  repeat split. exists []. symmetry. apply app_nil_r.
Qed.

Lemma printed_more_trans (a b c : ChatBot) :
  printed_more a b -> printed_more b c -> printed_more a c.
Proof.
  unfold printed_more.
  intros (? & ? & ? & ? & l1 & E1) (? & ? & ? & ? & l2 & E2).
  repeat split; try congruence.
  exists (l1 ++ l2)%list. rewrite E2, E1. symmetry. apply app_assoc.
Qed.

Lemma printed_more_print_line (line : string) (a : ChatBot) :
  printed_more a (print_line line a).
Proof.
  repeat split. exists [line]. reflexivity.
Qed.

Section Engine.

Variable on_enter_ : string -> option entry_hook.
Variable respond_from_ : string -> option response_hook.
Variable finish_ : string -> option completion_hook.

Lemma for_each_prints {A} (f : A -> M unit) (l : list A) :
  (forall x self, exists self', f x self = Return tt self' /\ printed_more self self') ->
  forall self, exists self',
    for_each f l self = Return tt self' /\ printed_more self self'.
Proof.
  intros Hf. induction l as [| x l IH]; intros self; simpl.
  - exists self. split; [reflexivity | apply printed_more_refl].
  - unfold bind. destruct (Hf x self) as (s1 & -> & H1).
    destruct (IH s1) as (s2 & -> & H2).
    exists s2. split; [reflexivity | eapply printed_more_trans; eassumption].
Qed.

Lemma check_prefix_prints (st prefix : string) (self : ChatBot) :
  exists self',
    check_prefix on_enter_ respond_from_ st prefix self = Return tt self'
    /\ printed_more self self'.
Proof.
  unfold check_prefix. destruct (hasattr _ _ _ _).
  - exists self. split; [reflexivity | apply printed_more_refl].
  - eexists. split; [reflexivity | apply printed_more_print_line].
Qed.

(** [_check_states] never raises and only prints. *)
Lemma _check_states_prints (self : ChatBot) :
  exists self',
    _check_states on_enter_ respond_from_ self = Return tt self'
    /\ printed_more self self'.
Proof.
  unfold _check_states, bind, get.
  apply for_each_prints. intros st s1.
  apply for_each_prints. intros prefix s2. apply check_prefix_prints.
Qed.

(** [_check_tags] changes the TAGS dictionary only. *)
Lemma _check_tags_position (self : ChatBot) :
  let self' := after (_check_tags self) in
  STATES self' = STATES self /\ default_state self' = default_state self
  /\ state self' = state self /\ stdout self' = stdout self.
Proof.
  unfold _check_tags, bind, get, modify.
  destruct (check_entries (TAGS self)) as [table [msg |]]; simpl; repeat split.
Qed.

Lemma _get_tags_reads (message : string) (self : ChatBot) :
  _get_tags message self =
    match tag_items (lower message) (TAGS self) ∅ with
    | Ok tags => Return tags self
    | Err e => Raise e self
    end.
Proof.
  unfold _get_tags, bind, get, lift.
  destruct (tag_items _ _ _); reflexivity.
Qed.

(** ** The transitions *)

(** C1: when the completion hook [finish_<manner>] exists and, called with
    no argument, returns [response], [finish manner] returns that same
    string and leaves the engine the hook left with its current state set
    to the default state, whatever the state was before. *)
Theorem finish_returns_hook_response_in_default_state
    (manner : string) (hook : completion_hook)
    (self self' : ChatBot) (response : string) :
  finish_ manner = Some hook ->
  hook self = Return response self' ->
  finish finish_ manner self
    = Return response (set_state (default_state self') self')
  /\ state (after (finish finish_ manner self))
     = default_state (after (finish finish_ manner self)).
Proof.
  intros Hlookup Hcall.
  assert (finish finish_ manner self
          = Return response (set_state (default_state self') self')) as E.
  { unfold finish, bind, getattr, get, modify, ret.
    rewrite Hlookup. simpl. rewrite Hcall. reflexivity. }
  split; [exact E | rewrite E; reflexivity].
Qed.

(** C2: [go_to_state target] raises an AssertionError and leaves the engine
    exactly as it was whenever [target] is the default state or is not in
    STATES. *)
Theorem go_to_state_rejects_default_and_undeclared
    (target : string) (self : ChatBot) :
  target = default_state self \/ ~ In target (STATES self) ->
  exists msg,
    go_to_state on_enter_ target self = Raise (AssertionError msg) self.
Proof.
  intros H. unfold go_to_state, bind, get, assert.
  destruct (mem target (STATES self)) eqn:Hmem.
  - destruct H as [-> | Hnot].
    + rewrite String.eqb_refl. simpl. eexists. reflexivity.
    + apply mem_In in Hmem. contradiction.
  - eexists. reflexivity.
Qed.

(** C3: for a declared, non-default [target] whose entry hook exists and
    returns [response], [go_to_state target] returns [response] and leaves
    the engine the hook left with its current state set to [target].  The
    other methods never put a non-default state there: [finish] and the
    constructor store the default state, [_get_tags] stores nothing, and
    the two checks keep the current state. *)
Theorem go_to_state_enters_target
    (target : string) (hook : entry_hook)
    (self self' : ChatBot) (response : string) :
  In target (STATES self) ->
  target <> default_state self ->
  on_enter_ target = Some hook ->
  hook self = Return response self' ->
  go_to_state on_enter_ target self = Return response (set_state target self')
  /\ state (after (go_to_state on_enter_ target self)) = target
  /\ (forall manner s r s',
        finish finish_ manner s = Return r s' -> state s' = default_state s')
  /\ (forall cls_STATES cls_TAGS console default s,
        __init__ on_enter_ respond_from_ cls_STATES cls_TAGS console default
          = Built s ->
        state s = default_state s)
  /\ (forall message s, after (_get_tags message s) = s)
  /\ (forall s, state (after (_check_states on_enter_ respond_from_ s)) = state s)
  /\ (forall s, state (after (_check_tags s)) = state s).
Proof.
  intros Hin Hne Hlookup Hcall.
  assert (go_to_state on_enter_ target self
          = Return response (set_state target self')) as E.
  { unfold go_to_state, bind, get, assert, getattr, modify, ret.
    apply mem_In in Hin. rewrite Hin.
    apply String.eqb_neq in Hne. rewrite Hne. simpl.
    rewrite Hlookup. simpl. rewrite Hcall. reflexivity. }
  split; [exact E |]. split; [rewrite E; reflexivity |].
  split; [| split; [| split; [| split]]].
  - intros manner s r s'. unfold finish, bind, getattr, get, modify, ret, raise.
    destruct (finish_ manner) as [h |]; simpl; [| discriminate].
    destruct (h s); [| discriminate].
    intros [= _ <-]. reflexivity.
  - intros cls_STATES cls_TAGS console default s. unfold __init__.
    set (run := fun self0 : ChatBot =>
                  (_check_states on_enter_ respond_from_ ;; _check_tags) self0).
    assert (forall self0 s0, run self0 = Return tt s0 ->
              state self0 = default_state self0 ->
              state s0 = default_state s0) as Hrun.
    { intros self0 s0. unfold run, bind.
      destruct (_check_states_prints self0) as (s1 & -> & _ & _ & Hd & Hs & _).
      pose proof (_check_tags_position s1) as (_ & Hd' & Hs' & _).
      intros Heq. rewrite Heq in Hd', Hs'. simpl in Hd', Hs'. congruence. }
    destruct (mem default cls_STATES).
    + destruct (run _) as [[] s0 |] eqn:Er; [| discriminate].
      intros [= <-]. eapply Hrun; [exact Er | reflexivity].
    + destruct cls_STATES as [| first rest]; [discriminate |].
      destruct (run _) as [[] s0 |] eqn:Er; [| discriminate].
      intros [= <-]. eapply Hrun; [exact Er | reflexivity].
  - intros message s. rewrite _get_tags_reads.
    destruct (tag_items _ _ _); reflexivity.
  - intros s. destruct (_check_states_prints s) as (s1 & -> & _ & _ & _ & Hs & _).
    simpl. congruence.
  - intros s. apply _check_tags_position.
Qed.

(** C4: when the current state has a response hook and the matcher yields
    [tags] for the message, [respond message] is the call of that hook on
    [message] and [tags]; and if the engine was left by a successful
    [go_to_state s], that hook is the response hook of [s]. *)
Theorem respond_dispatches_on_current_state
    (message : string) (hook : response_hook)
    (tags : Counter) (self : ChatBot) :
  respond_from_ (state self) = Some hook ->
  tag_items (lower message) (TAGS self) ∅ = Ok tags ->
  respond respond_from_ message self = hook message tags self
  /\ (forall s self0 r,
        go_to_state on_enter_ s self0 = Return r self ->
        respond_from_ s = Some hook).
Proof.
  intros Hlookup Htags. split.
  - unfold respond, bind, get, getattr, ret. rewrite Hlookup. simpl.
    rewrite _get_tags_reads, Htags. reflexivity.
  - intros s self0 r. unfold go_to_state, bind, get, assert, getattr, modify, ret, raise.
    destruct (mem s (STATES self0)); [| discriminate].
    destruct (negb _); [| discriminate]. simpl.
    destruct (on_enter_ s) as [h |]; simpl; [| discriminate].
    destruct (h self0); [| discriminate].
    intros [= _ <-]. exact Hlookup.
Qed.

(** C9, as amended: neither transition assigns anything when it raises.  A
    failed [go_to_state] or [finish] leaves the engine exactly as it was
    (a failed assertion or a failed hook lookup), or else the exception and
    the engine are the ones the hook itself left on raising; so the current
    state is unchanged unless the hook changed it before it raised. *)
Theorem failed_transition_assigns_nothing
    (target manner : string) (self self' : ChatBot) (e : exn) :
  go_to_state on_enter_ target self = Raise e self'
  \/ finish finish_ manner self = Raise e self' ->
  self' = self
  \/ (exists hook, on_enter_ target = Some hook /\ hook self = Raise e self')
  \/ (exists hook, finish_ manner = Some hook /\ hook self = Raise e self').
Proof.
  intros [H | H].
  - revert H. unfold go_to_state, bind, get, assert, getattr, modify, ret, raise.
    destruct (mem target (STATES self)); [| intros [= _ <-]; now left].
    destruct (negb _); [| intros [= _ <-]; now left]. simpl.
    destruct (on_enter_ target) as [h |]; simpl; [| intros [= _ <-]; now left].
    destruct (h self) as [r s1 | e1 s1] eqn:Eh; [discriminate |].
    intros [= <- <-]. right. left. exists h. split; [reflexivity | exact Eh].
  - revert H. unfold finish, bind, get, getattr, modify, ret, raise.
    destruct (finish_ manner) as [h |]; simpl; [| intros [= _ <-]; now left].
    destruct (h self) as [r s1 | e1 s1] eqn:Eh; [discriminate |].
    intros [= <- <-]. right. right. exists h. split; [reflexivity | exact Eh].
Qed.

End Engine.

(** ** The transitions on concrete engines *)

Lemma oxycsbot_new : oxycsbot.new [] = Built oxycsbot.instance.
Proof. vm_compute. reflexivity. Qed.

Lemma finish_returns_hook_response_in_default_state_witness :
  let self := set_state "thoughts_2" oxycsbot.instance in
  finish oxycsbot.finish_ "reject" self
    = Return "Ok, I understand. Thank you for your time."
        (set_state (default_state self) self)
  /\ state (after (finish oxycsbot.finish_ "reject" self))
     = default_state (after (finish oxycsbot.finish_ "reject" self)).
Proof.
  intros self.
  apply (finish_returns_hook_response_in_default_state
           oxycsbot.finish_ "reject"
           (ret "Ok, I understand. Thank you for your time.") self self);
    reflexivity.
Defined.

Lemma go_to_state_rejects_default_and_undeclared_witness :
  let self := set_state "thoughts_1" oxycsbot.instance in
  exists msg,
    go_to_state oxycsbot.on_enter_ "waiting" self
      = Raise (AssertionError msg) self.
Proof.
  intros self.
  apply (go_to_state_rejects_default_and_undeclared
           oxycsbot.on_enter_ "waiting" self).
  left. reflexivity.
Defined.

Lemma go_to_state_enters_target_witness :
  go_to_state oxycsbot.on_enter_ "thoughts_2" oxycsbot.instance
    = Return "Ok, then can I please discuss more paid time off?"
        (set_state "thoughts_2" oxycsbot.instance)
  /\ state (after (go_to_state oxycsbot.on_enter_ "thoughts_2" oxycsbot.instance))
     = "thoughts_2".
Proof.
  destruct (go_to_state_enters_target
              oxycsbot.on_enter_ oxycsbot.respond_from_ oxycsbot.finish_
              "thoughts_2"
              (ret "Ok, then can I please discuss more paid time off?")
              oxycsbot.instance oxycsbot.instance
              "Ok, then can I please discuss more paid time off?")
    as (E & S & _).
  - vm_compute. tauto.
  - discriminate.
  - reflexivity.
  - reflexivity.
  - split; [exact E | exact S].
Defined.

Lemma respond_dispatches_on_current_state_witness :
  let self := set_state "thoughts_1" oxycsbot.instance in
  exists hook,
    oxycsbot.respond_from_ "thoughts_1" = Some hook
    /\ respond oxycsbot.respond_from_ "Yes, of course" self
       = hook "Yes, of course" {[ "yes" := 2 ]} self.
Proof.
  intros self.
  eexists. split; [reflexivity |].
  apply (respond_dispatches_on_current_state
           oxycsbot.on_enter_ oxycsbot.respond_from_ "Yes, of course"
           _ {[ "yes" := 2 ]} self).
  - reflexivity.
  - vm_compute. reflexivity.
Defined.

Lemma failed_transition_assigns_nothing_witness :
  set_state "idle" Stuck.busy = Stuck.busy
  \/ (exists hook, Stuck.on_enter_ "stuck" = Some hook
        /\ hook Stuck.busy
           = Raise (AttributeError "finish_missing") (set_state "idle" Stuck.busy))
  \/ (exists hook, Stuck.finish_ "done" = Some hook
        /\ hook Stuck.busy
           = Raise (AttributeError "finish_missing") (set_state "idle" Stuck.busy)).
Proof.
  apply (failed_transition_assigns_nothing
           Stuck.on_enter_ Stuck.finish_ "stuck" "done" Stuck.busy).
  left. reflexivity.
Defined.

(** C9, as stated, fails: the entry hook of [Stuck] finishes and then
    raises, and [go_to_state] passes the exception on with the engine in
    the default state, not in the state it was called in. *)
Lemma raising_hook_has_moved_the_state :
  Stuck.go_to_state "stuck" Stuck.busy
    = Raise (AttributeError "finish_missing") (set_state "idle" Stuck.busy)
  /\ ~ (forall on_enter_ target self e self',
          go_to_state on_enter_ target self = Raise e self' ->
          state self' = state self).
Proof.
  split; [reflexivity |].
  intros H.
  specialize (H Stuck.on_enter_ "stuck" Stuck.busy
                (AttributeError "finish_missing")
                (set_state "idle" Stuck.busy) eq_refl).
  discriminate H.
Qed.

(** The round trip of the dialogue: "Hello there" takes a fresh [oxycsbot]
    to [thoughts_1] with that state's opening line, and an unrecognised
    message there is answered through [thoughts_1]'s own hook. *)
Example hello_there_round_trip :
  oxycsbot.respond "Hello there" oxycsbot.instance
    = Return "Hello boss, I would like to discuss increasing my salary. Can I discuss this with you?"
        (set_state "thoughts_1" oxycsbot.instance)
  /\ oxycsbot.respond "no" (set_state "thoughts_1" oxycsbot.instance)
    = Return "Ok, then can I please discuss more paid time off?"
        (set_state "thoughts_2" oxycsbot.instance)
  /\ oxycsbot.respond "xyz" oxycsbot.instance
    = Return "I am sorry I do not understand. Can you please say hello"
        oxycsbot.instance.
Proof. repeat split; vm_compute; reflexivity. Qed.

(** ** The Counter *)

Lemma count_counter_incr (counter : Counter) (t tag : string) :
  count (counter_incr counter t) tag
  = count counter tag + (if string_dec t tag then 1 else 0).
Proof.
  unfold counter_incr, count. destruct (string_dec t tag) as [-> | Hne].
  - rewrite lookup_insert_eq. destruct (counter !! tag); simpl; lia.
  - rewrite lookup_insert_ne by assumption.
    destruct (counter !! tag); simpl; lia.
Qed.

Lemma count_fold_incr (l : list string) (counter : Counter) (tag : string) :
  count (fold_left counter_incr l counter) tag
  = count counter tag + count_occ string_dec l tag.
Proof.
  revert counter. induction l as [| t l IH]; intros counter; simpl.
  - lia.
  - rewrite IH, count_counter_incr. destruct (string_dec t tag); lia.
Qed.

Lemma counter_update_count (counter counter' : Counter) (tags : tagval) :
  counter_update counter tags = Ok counter' ->
  forall tag, count counter' tag = count counter tag + increments tags tag.
Proof.
  destruct tags as [s | l | l | cls]; simpl; intros [= <-] tag;
    apply count_fold_incr.
Qed.

(** Whether the update raises depends on the tags only. *)
Lemma counter_update_total (counter other : Counter) (tags : tagval) :
  match counter_update counter tags, counter_update other tags with
  | Ok _, Ok _ => True
  | Err e, Err e' => e = e'
  | _, _ => False
  end.
Proof. destruct tags; simpl; auto. Qed.

(** ** The matcher *)

Lemma tag_items_app (msg : string) (before rest : dict tagval) (counter : Counter) :
  tag_items msg (before ++ rest) counter
  = match tag_items msg before counter with
    | Ok counter' => tag_items msg rest counter'
    | Err e => Err e
    end.
Proof.
  revert counter. induction before as [| [phrase tags] before IH];
    intros counter; simpl; [reflexivity |].
  destruct (Re.search _ _) as [[|] | m |]; try reflexivity; [| apply IH].
  destruct (counter_update counter tags); [apply IH | reflexivity].
Qed.

Lemma tally_app (msg : string) (before rest : dict tagval) (tag : string) :
  tally msg (before ++ rest) tag = tally msg before tag + tally msg rest tag.
Proof.
  induction before as [| [phrase tags] before IH]; simpl; [reflexivity |].
  rewrite IH. lia.
Qed.

(** The counts that come out are the counts that went in plus the tally. *)
Lemma tag_items_count (msg : string) (entries : dict tagval) (counter counter' : Counter) :
  tag_items msg entries counter = Ok counter' ->
  forall tag, count counter' tag = count counter tag + tally msg entries tag.
Proof.
  revert counter. induction entries as [| [phrase tags] entries IH];
    intros counter; simpl.
  - intros [= <-] tag. lia.
  - destruct (Re.search _ _) as [[|] | m |]; try discriminate.
    + destruct (counter_update counter tags) as [c1 |] eqn:Eu; [| discriminate].
      intros H tag. rewrite (IH _ H), (counter_update_count _ _ _ Eu). lia.
    + intros H tag. rewrite (IH _ H). lia.
Qed.

(** Whether the loop raises does not depend on the counter it starts from. *)
Lemma tag_items_any_start (msg : string) (entries : dict tagval) (counter counter' : Counter) :
  tag_items msg entries counter = Ok counter' ->
  forall other, exists other', tag_items msg entries other = Ok other'.
Proof.
  revert counter. induction entries as [| [phrase tags] entries IH];
    intros counter; simpl.
  - intros _ other. exists other. reflexivity.
  - destruct (Re.search _ _) as [[|] | m |]; try discriminate.
    + intros H other.
      pose proof (counter_update_total counter other tags) as Ht.
      destruct (counter_update counter tags) as [c1 |]; [| discriminate].
      destruct (counter_update other tags) as [c2 |]; [| contradiction].
      eapply IH. exact H.
    + intros H other. eapply IH. exact H.
Qed.


(** C6: when the phrase [P], an item of the table with the tags [t1] and
    [t2], is found in the message, the counts that [_get_tags] computes
    are those of the table without that item, with one more for [t1], one
    more for [t2] and every other tag as it was. *)
Theorem matched_phrase_increments_each_tag_once
    (message P t1 t2 : string) (before rest : dict tagval) (counter : Counter) :
  t1 <> t2 ->
  Re.search (phrase_pattern P) (lower message) = Re.Found true ->
  tag_items (lower message) (before ++ (P, PyList [t1; t2]) :: rest) ∅
    = Ok counter ->
  exists without,
    tag_items (lower message) (before ++ rest) ∅ = Ok without
    /\ count counter t1 = count without t1 + 1
    /\ count counter t2 = count without t2 + 1
    /\ (forall tag, tag <> t1 -> tag <> t2 -> count counter tag = count without tag).
Proof.
  intros Hne Hfound Hrun.
  pose proof (tag_items_count _ _ _ _ Hrun) as Hcount.
  rewrite tag_items_app in Hrun.
  destruct (tag_items (lower message) before ∅) as [c1 |] eqn:Eb; [| discriminate].
  simpl in Hrun. rewrite Hfound in Hrun. simpl in Hrun.
  destruct (tag_items_any_start _ _ _ _ Hrun c1) as [without Hw].
  exists without. rewrite tag_items_app, Eb.
  split; [exact Hw |].
  assert (forall tag, count without tag
            = count (∅ : Counter) tag + tally (lower message) (before ++ rest) tag)
    as Hwithout.
  { apply tag_items_count. rewrite tag_items_app, Eb. exact Hw. }
  assert (forall tag, count counter tag
            = count without tag
              + (if string_dec t1 tag then 1 else 0)
              + (if string_dec t2 tag then 1 else 0)) as Hdiff.
  { intros tag. rewrite Hcount, Hwithout, !tally_app. simpl.
    rewrite Hfound. simpl.
    destruct (string_dec t1 tag), (string_dec t2 tag); lia. }
  repeat split.
  - rewrite Hdiff. destruct (string_dec t1 t1); [| congruence].
    destruct (string_dec t2 t1); [congruence | lia].
  - rewrite Hdiff. destruct (string_dec t2 t2); [| congruence].
    destruct (string_dec t1 t2); [congruence | lia].
  - intros tag H1 H2. rewrite Hdiff.
    destruct (string_dec t1 tag); [congruence |].
    destruct (string_dec t2 tag); [congruence | lia].
Qed.


Lemma matched_phrase_increments_each_tag_once_witness :
  let table_without := [("hello", PyList ["hello"]); ("bye", PyList ["success"])] in
  exists without,
    tag_items (lower "Hello, THANKS!") table_without ∅ = Ok without
    /\ count {[ "hello" := 1; "thanks" := 1; "polite" := 1 ]} "thanks"
       = count without "thanks" + 1
    /\ count {[ "hello" := 1; "thanks" := 1; "polite" := 1 ]} "polite"
       = count without "polite" + 1
    /\ (forall tag, tag <> "thanks" -> tag <> "polite" ->
        count {[ "hello" := 1; "thanks" := 1; "polite" := 1 ]} tag
        = count without tag).
Proof.
  apply (matched_phrase_increments_each_tag_once
           "Hello, THANKS!" "thanks" "thanks" "polite"
           [("hello", PyList ["hello"])] [("bye", PyList ["success"])]
           {[ "hello" := 1; "thanks" := 1; "polite" := 1 ]}).
  - discriminate.
  - vm_compute. reflexivity.
  - vm_compute. reflexivity.
Defined.


(** The phrase occurs once in the first message and three times in the
    second, and the tag is counted once for both. *)
Example hi_three_times :
  Re.compile (phrase_pattern "hi")
    = Re.Compiled (Re.Seq (Re.At Re.WordBoundary)
                     (Re.Seq (Re.Lit "h") (Re.Seq (Re.Lit "i")
                        (Re.Seq (Re.At Re.WordBoundary) Re.Eps))))
  /\ (forall r, Re.compile (phrase_pattern "hi") = Re.Compiled r ->
        Re.occurrences r None (list_ascii_of_string (lower "hi")) = 1
        /\ Re.occurrences r None (list_ascii_of_string (lower "Hi, hi, HI!")) = 3)
  /\ tag_items (lower "hi") [("hi", PyList ["hello"])] ∅ = Ok {[ "hello" := 1 ]}
  /\ tag_items (lower "Hi, hi, HI!") [("hi", PyList ["hello"])] ∅
     = Ok {[ "hello" := 1 ]}.
Proof.
  split; [vm_compute; reflexivity |].
  split; [| split; vm_compute; reflexivity].
  intros r H. vm_compute in H. injection H as <-.
  split; vm_compute; reflexivity.
Qed.

(** ** Phrases without pattern characters are matched literally *)

Lemma list_ascii_of_string_app (a b : string) :
  list_ascii_of_string (a +:+ b)
  = (list_ascii_of_string a ++ list_ascii_of_string b)%list.
Proof.
  induction a as [| c a IH]; simpl; [reflexivity | now rewrite IH].
Qed.

Lemma plain_char_parse (c : ascii) (s : list ascii) (cur : Re.frame) (stack : list Re.frame) :
  plain_char c = true ->
  Re.parse (c :: s) cur stack = Re.parse s (Re.push cur (Re.Lit c) Re.Plain) stack.
Proof.
  unfold plain_char. intros H. apply negb_true_iff in H.
  cbn [list_ascii_of_string existsb] in H.
  repeat (apply orb_false_elim in H; destruct H as [?E H]).
  cbn [Re.parse]. unfold Re.is_quantifier.
  rewrite E, E0, E1, E2, E3, E4, E5, E6, E7, E8, E9, E10. reflexivity.
Qed.

Lemma plain_chars_parse (l s : list ascii) (cur : Re.frame) (stack : list Re.frame) :
  forallb plain_char l = true ->
  Re.parse (l ++ s) cur stack
  = Re.parse s
      (Re.Frame (Re.alts cur)
         (rev (map (fun c => (Re.Lit c, Re.Plain)) l) ++ Re.items cur))
      stack.
Proof.
  revert cur. induction l as [| c l IH]; intros cur H;
    cbn [app forallb map rev] in *.
  - destruct cur. reflexivity.
  - apply andb_true_iff in H. destruct H as [Hc Hl].
    rewrite (plain_char_parse _ _ _ _ Hc), (IH _ Hl).
    cbn [Re.push Re.alts Re.items].
    rewrite <- app_assoc. reflexivity.
Qed.

Lemma seq_of_literals (l : list ascii) (acc : Re.regex) :
  fold_left (fun acc it => Re.Seq (fst it) acc)
            (rev (map (fun c => (Re.Lit c, Re.Plain)) l)) acc
  = literals l acc.
Proof.
  induction l as [| c l IH]; simpl; [reflexivity |].
  rewrite fold_left_app. simpl. now rewrite IH.
Qed.

Lemma plain_phrase_compile (phrase : string) :
  forallb plain_char (list_ascii_of_string (lower phrase)) = true ->
  Re.compile (phrase_pattern phrase)
  = Re.Compiled
      (Re.Seq (Re.At Re.WordBoundary)
         (literals (list_ascii_of_string (lower phrase))
            (Re.Seq (Re.At Re.WordBoundary) Re.Eps))).
Proof.
  intros H. unfold Re.compile, phrase_pattern.
  rewrite !list_ascii_of_string_app.
  change (list_ascii_of_string "\b") with ["\"; "b"]%char.
  cbn [app Re.parse Ascii.eqb Bool.eqb Re.escape].
  rewrite (plain_chars_parse _ _ _ _ H).
  cbn [Re.parse Ascii.eqb Bool.eqb Re.escape Re.push Re.alts Re.items app].
  unfold Re.frame_regex, Re.seq_of, Re.push, Re.empty_frame.
  cbn [Re.alts Re.items fold_left fst].
  rewrite fold_left_app, seq_of_literals. reflexivity.
Qed.

Lemma match_prefix_Fail (prev : option ascii) (s : list ascii) :
  Re.match_prefix Re.Fail prev s = false.
Proof.
  revert prev. induction s as [| c s IH]; intros prev; simpl; [reflexivity |].
  apply IH.
Qed.

Lemma match_prefix_Seq_Fail (r : Re.regex) (prev : option ascii) (s : list ascii) :
  Re.match_prefix (Re.Seq Re.Fail r) prev s = false.
Proof.
  revert prev. induction s as [| c s IH]; intros prev; simpl; [reflexivity |].
  apply IH.
Qed.

Lemma match_prefix_Alt (r1 r2 : Re.regex) (prev : option ascii) (s : list ascii) :
  Re.match_prefix (Re.Alt r1 r2) prev s
  = Re.match_prefix r1 prev s || Re.match_prefix r2 prev s.
Proof.
  revert r1 r2 prev. induction s as [| c s IH]; intros r1 r2 prev; simpl.
  - now rewrite !orb_false_r.
  - rewrite IH.
    destruct (Re.nullable prev (c :: s) r1), (Re.nullable prev (c :: s) r2);
      simpl; rewrite ?orb_true_r; reflexivity.
Qed.

Lemma match_prefix_unfold (r : Re.regex) (prev : option ascii) (s : list ascii) :
  Re.match_prefix r prev s
  = Re.nullable prev s r ||
    match s with
    | [] => false
    | c :: s' => Re.match_prefix (Re.deriv prev c s' r) (Some c) s'
    end.
Proof. destruct s; reflexivity. Qed.

Lemma match_prefix_Seq_At (a : Re.assertion) (r : Re.regex)
    (prev : option ascii) (s : list ascii) :
  Re.match_prefix (Re.Seq (Re.At a) r) prev s
  = Re.holds a prev s && Re.match_prefix r prev s.
Proof.
  rewrite (match_prefix_unfold (Re.Seq _ _)), (match_prefix_unfold r).
  destruct s as [| c s]; cbn [Re.nullable Re.deriv].
  - destruct (Re.holds a prev []); simpl; reflexivity.
  - destruct (Re.holds a prev (c :: s)); cbn [andb orb].
    + rewrite match_prefix_Alt, match_prefix_Seq_Fail. reflexivity.
    + apply match_prefix_Seq_Fail.
Qed.

Lemma match_prefix_Seq_Eps (r : Re.regex) (prev : option ascii) (s : list ascii) :
  Re.match_prefix (Re.Seq Re.Eps r) prev s = Re.match_prefix r prev s.
Proof.
  rewrite (match_prefix_unfold (Re.Seq _ _)), (match_prefix_unfold r).
  destruct s as [| c s]; cbn [Re.nullable Re.deriv andb]; [reflexivity |].
  rewrite match_prefix_Alt, match_prefix_Seq_Fail. reflexivity.
Qed.

Lemma match_prefix_Seq_Lit (c : ascii) (r : Re.regex)
    (prev : option ascii) (s : list ascii) :
  Re.match_prefix (Re.Seq (Re.Lit c) r) prev s
  = match s with
    | [] => false
    | d :: s' => Ascii.eqb c d && Re.match_prefix r (Some d) s'
    end.
Proof.
  rewrite (match_prefix_unfold (Re.Seq _ _)).
  destruct s as [| d s]; cbn [Re.nullable Re.deriv andb orb]; [reflexivity |].
  rewrite (Ascii.eqb_sym d c). destruct (Ascii.eqb c d); cbn [andb].
  - apply match_prefix_Seq_Eps.
  - apply match_prefix_Seq_Fail.
Qed.

Lemma match_prefix_literals (l : list ascii) (k : Re.regex)
    (prev : option ascii) (s : list ascii) :
  Re.match_prefix (literals l k) prev s
  = match Literal.strip_prefix l s with
    | Some rest => Re.match_prefix k (Re.last_read prev l) rest
    | None => false
    end.
Proof.
  revert prev s. induction l as [| c l IH]; intros prev s;
    cbn [literals Literal.strip_prefix]; [reflexivity |].
  rewrite match_prefix_Seq_Lit. destruct s as [| d s]; [reflexivity |].
  destruct (Ascii.eqb c d) eqn:E; cbn [andb]; [| reflexivity].
  apply Ascii.eqb_eq in E. subst d. rewrite IH. reflexivity.
Qed.

Lemma match_prefix_phrase (l : list ascii) (prev : option ascii) (s : list ascii) :
  Re.match_prefix
    (Re.Seq (Re.At Re.WordBoundary)
       (literals l (Re.Seq (Re.At Re.WordBoundary) Re.Eps))) prev s
  = Literal.occurs_at l prev s.
Proof.
  rewrite match_prefix_Seq_At, match_prefix_literals. unfold Literal.occurs_at.
  f_equal. destruct (Literal.strip_prefix l s) as [rest |]; [| reflexivity].
  rewrite match_prefix_Seq_At.
  rewrite (match_prefix_unfold Re.Eps). cbn [Re.nullable orb].
  apply andb_true_r.
Qed.

Lemma scan_phrase (l : list ascii) (prev : option ascii) (s : list ascii) :
  Re.scan
    (Re.Seq (Re.At Re.WordBoundary)
       (literals l (Re.Seq (Re.At Re.WordBoundary) Re.Eps))) prev s
  = Literal.occurs_from l prev s.
Proof.
  revert prev. induction s as [| c s IH]; intros prev;
    cbn [Re.scan Literal.occurs_from]; rewrite match_prefix_phrase;
    [reflexivity |].
  now rewrite IH.
Qed.

(** A phrase that has none of the characters [\ ( ) | * + ? . ^ $ [ {]
    is found by the matcher exactly when it occurs literally between word
    boundaries. *)
Lemma plain_phrase_matched_literally (phrase message : string) :
  forallb plain_char (list_ascii_of_string (lower phrase)) = true ->
  Re.search (phrase_pattern phrase) (lower message)
  = Re.Found (Literal.phrase_occurs phrase message).
Proof.
  intros H. unfold Re.search. rewrite (plain_phrase_compile _ H).
  f_equal. apply scan_phrase.
Qed.

(** ** The matcher finds exactly the matches of the pattern *)

Lemma nullable_Matches r p q : Re.nullable p q r = true <-> Re.Matches r p [] q.
Proof.
  split.
  - revert p q. induction r; intros p q H; simpl in H; try discriminate.
    + constructor.
    + now constructor.
    + apply andb_true_iff in H. destruct H as [H1 H2].
      change (@nil ascii) with (@nil ascii ++ [])%list.
      constructor; [apply IHr1, H1 | apply IHr2, H2].
    + apply orb_true_iff in H. destruct H as [H | H];
        [apply Re.MAltL, IHr1, H | apply Re.MAltR, IHr2, H].
    + constructor.
  - intros H. remember [] as w eqn:Ew. induction H; try discriminate; simpl;
      try reflexivity.
    + assumption.
    + apply app_eq_nil in Ew. destruct Ew as [-> ->].
      specialize (IHMatches1 eq_refl). specialize (IHMatches2 eq_refl).
      simpl in IHMatches1, IHMatches2.
      rewrite IHMatches1, IHMatches2. reflexivity.
    + rewrite IHMatches; [reflexivity | assumption].
    + rewrite IHMatches; [apply orb_true_r | assumption].
Qed.

Lemma Star_cons_gen rs p cw q :
  Re.Matches rs p cw q ->
  forall r c w, rs = Re.Star r -> cw = c :: w ->
  exists w1 w2, w = (w1 ++ w2)%list
    /\ Re.Matches r p (c :: w1) (w2 ++ q)
    /\ Re.Matches (Re.Star r) (Re.last_read p (c :: w1)) w2 q.
Proof.
  induction 1 as [| | | | | | | | | r0 p w1 w2 q H1 IH1 H2 IH2];
    intros r' c' w' Er Ew; try discriminate.
  injection Er as ->.
  destruct w1 as [| d w1].
  - simpl in Ew. subst w2. apply IH2; reflexivity.
  - simpl in Ew. injection Ew as -> <-. exists w1, w2. auto.
Qed.

Lemma Star_cons r p c w q :
  Re.Matches (Re.Star r) p (c :: w) q ->
  exists w1 w2, w = (w1 ++ w2)%list
    /\ Re.Matches r p (c :: w1) (w2 ++ q)
    /\ Re.Matches (Re.Star r) (Re.last_read p (c :: w1)) w2 q.
Proof. intros H. eapply Star_cons_gen; [exact H | reflexivity | reflexivity]. Qed.

Lemma Seq_inv r1 r2 p w q :
  Re.Matches (Re.Seq r1 r2) p w q ->
  exists w1 w2, w = (w1 ++ w2)%list
    /\ Re.Matches r1 p w1 (w2 ++ q) /\ Re.Matches r2 (Re.last_read p w1) w2 q.
Proof. intros H. inversion H; subst. eauto. Qed.

Lemma Alt_inv r1 r2 p w q :
  Re.Matches (Re.Alt r1 r2) p w q -> Re.Matches r1 p w q \/ Re.Matches r2 p w q.
Proof. intros H. inversion H; subst; auto. Qed.

Lemma deriv_Matches (r : Re.regex) : forall p c w q,
  Re.Matches (Re.deriv p c (w ++ q) r) (Some c) w q <-> Re.Matches r p (c :: w) q.
Proof.
  induction r as [| | a | | k negated | a | r1 IH1 r2 IH2 | r1 IH1 r2 IH2 | r1 IH1];
    intros p c w q; simpl.
  - split; intros H; inversion H.
  - split; intros H; inversion H.
  - destruct (Ascii.eqb c a) eqn:E.
    + apply Ascii.eqb_eq in E. subst. split; intros H; inversion H; subst; constructor.
    + apply Ascii.eqb_neq in E. split; intros H; inversion H; subst. congruence.
  - destruct (Char.is_newline c) eqn:E; split; intros H; inversion H; subst;
      try congruence; now constructor.
  - destruct (xorb negated (Re.in_category k c)) eqn:E; split; intros H;
      inversion H; subst; try congruence; now constructor.
  - split; intros H; inversion H.
  - assert (forall w1 w2, w = (w1 ++ w2)%list ->
              Re.Matches (Re.deriv p c (w ++ q) r1) (Some c) w1 (w2 ++ q) ->
              Re.Matches r2 (Re.last_read (Some c) w1) w2 q ->
              Re.Matches (Re.Seq r1 r2) p (c :: w) q) as Hfwd.
    { intros w1 w2 -> H1 H2. rewrite <- app_assoc in H1. apply IH1 in H1.
      change (c :: w1 ++ w2)%list with ((c :: w1) ++ w2)%list.
      apply Re.MSeq; assumption. }
    assert (forall w1 w2, w = (w1 ++ w2)%list ->
              Re.Matches r1 p (c :: w1) (w2 ++ q) ->
              Re.Matches r2 (Re.last_read p (c :: w1)) w2 q ->
              Re.Matches (Re.Seq (Re.deriv p c (w ++ q) r1) r2) (Some c) w q) as Hbwd.
    { intros w1 w2 -> H1 H2. apply Re.MSeq; [| exact H2].
      rewrite <- app_assoc. apply IH1. exact H1. }
    destruct (Re.nullable p (c :: w ++ q) r1) eqn:En.
    + split; intros H.
      * apply Alt_inv in H. destruct H as [H | H].
        -- apply Seq_inv in H. destruct H as (w1 & w2 & E & H1 & H2).
           eapply Hfwd; eauto.
        -- apply IH2 in H. apply nullable_Matches in En.
           change (c :: w)%list with ([] ++ c :: w)%list.
           apply Re.MSeq; assumption.
      * apply Seq_inv in H. destruct H as (w1 & w2 & Ew & H1 & H2).
        destruct w1 as [| d w1]; simpl in Ew.
        -- subst w2. apply Re.MAltR, IH2. exact H2.
        -- injection Ew as <- ->. apply Re.MAltL. eapply Hbwd; eauto.
    + split; intros H.
      * apply Seq_inv in H. destruct H as (w1 & w2 & E & H1 & H2).
        eapply Hfwd; eauto.
      * apply Seq_inv in H. destruct H as (w1 & w2 & Ew & H1 & H2).
        destruct w1 as [| d w1]; simpl in Ew.
        -- subst w2. apply nullable_Matches in H1. simpl in H1. congruence.
        -- injection Ew as <- ->. eapply Hbwd; eauto.
  - split; intros H; apply Alt_inv in H; destruct H as [H | H].
    + apply Re.MAltL, IH1. assumption.
    + apply Re.MAltR, IH2. assumption.
    + apply Re.MAltL, IH1. assumption.
    + apply Re.MAltR, IH2. assumption.
  - split; intros H.
    + apply Seq_inv in H. destruct H as (w1 & w2 & -> & H1 & H2).
      change (c :: w1 ++ w2)%list with ((c :: w1) ++ w2)%list.
      apply Re.MStarApp; [| exact H2].
      apply IH1. rewrite <- app_assoc in H1. exact H1.
    + apply Star_cons in H. destruct H as (w1 & w2 & -> & H1 & H2).
      apply Re.MSeq; [| exact H2].
      rewrite <- app_assoc. apply IH1. exact H1.
Qed.

Lemma match_prefix_Matches r p s :
  Re.match_prefix r p s = true
  <-> exists w q, s = (w ++ q)%list /\ Re.Matches r p w q.
Proof.
  revert r p. induction s as [| c s IH]; intros r p.
  - rewrite match_prefix_unfold, orb_false_r, nullable_Matches. split.
    + intros H. exists [], []. auto.
    + intros (w & q & E & H). symmetry in E. apply app_eq_nil in E.
      destruct E as [-> ->]. exact H.
  - rewrite match_prefix_unfold, orb_true_iff, nullable_Matches, IH. split.
    + intros [H | (w & q & -> & H)].
      * exists [], (c :: s). auto.
      * exists (c :: w), q. split; [reflexivity |]. apply deriv_Matches. exact H.
    + intros (w & q & E & H). destruct w as [| d w]; simpl in E.
      * subst q. left. exact H.
      * injection E as <- ->. right. exists w, q. split; [reflexivity |].
        apply deriv_Matches. exact H.
Qed.

Lemma scan_Matches r p s :
  Re.scan r p s = true
  <-> exists u w q, s = (u ++ w ++ q)%list /\ Re.Matches r (Re.last_read p u) w q.
Proof.
  revert p. induction s as [| c s IH]; intros p; cbn [Re.scan].
  - rewrite orb_false_r, match_prefix_Matches. split.
    + intros (w & q & E & H). exists [], w, q. auto.
    + intros (u & w & q & E & H). symmetry in E.
      apply app_eq_nil in E. destruct E as [-> E]. exists w, q. auto.
  - rewrite orb_true_iff, match_prefix_Matches, IH. split.
    + intros [(w & q & E & H) | (u & w & q & -> & H)].
      * exists [], w, q. auto.
      * exists (c :: u), w, q. auto.
    + intros (u & w & q & E & H). destruct u as [| d u]; simpl in E.
      * left. exists w, q. auto.
      * injection E as <- ->. right. exists u, w, q. auto.
Qed.

(** [re.search] answers with a match exactly when some piece of the
    subject matches the compiled pattern. *)
Lemma search_finds_matches (pattern subject : string) (r : Re.regex) :
  Re.compile pattern = Re.Compiled r ->
  Re.search pattern subject = Re.Found true
  <-> exists u w q,
        list_ascii_of_string subject = (u ++ w ++ q)%list
        /\ Re.Matches r (Re.last_read None u) w q.
Proof.
  intros Hc. unfold Re.search. rewrite Hc. rewrite <- scan_Matches.
  split; [intros [= H]; exact H | intros H; now rewrite H].
Qed.

(** C5 fails on the table of [oxycsbot] itself.  Its phrase "whats up?"
    is pasted into the pattern unescaped, so the question mark makes the
    "p" optional: the message "whats u" holds no phrase of the table
    literally, yet the matcher counts [hello] and the bot leaves the
    waiting state. *)
Theorem question_mark_phrase_read_as_pattern :
  In ("whats up?", PyList ["hello"]) (TAGS oxycsbot.instance)
  /\ forallb (fun kv => negb (Literal.phrase_occurs (fst kv) "whats u"))
             (TAGS oxycsbot.instance) = true
  /\ Re.search (phrase_pattern "whats up?") (lower "whats u") = Re.Found true
  /\ _get_tags "whats u" oxycsbot.instance
     = Return {[ "hello" := 1 ]} oxycsbot.instance
  /\ oxycsbot.respond "whats u" oxycsbot.instance
     = Return "Hello boss, I would like to discuss increasing my salary. Can I discuss this with you?"
         (set_state "thoughts_1" oxycsbot.instance).
Proof.
  split; [vm_compute; tauto |].
  repeat split; vm_compute; reflexivity.
Qed.

(** The other way round: a phrase with a plus sign occurs literally and
    is not found, because the pattern asks for a run of "1"s. *)
Example plus_sign_phrase_not_found :
  Literal.phrase_occurs "1+1" "what is 1+1" = true
  /\ tag_items (lower "what is 1+1") [("1+1", PyList ["sum"])] ∅ = Ok ∅.
Proof. split; vm_compute; reflexivity. Qed.

(** A phrase that cannot be read as a pattern makes the matcher raise. *)
Example smiley_phrase_raises :
  tag_items (lower "fine :)") [(":)", PyList ["happy"])] ∅
  = Err (ReError "unbalanced parenthesis").
Proof. vm_compute. reflexivity. Qed.

(** The boundary discipline itself holds: "hi" is not found in "this". *)
Example hi_not_in_this :
  tag_items (lower "this") [("hi", PyList ["hello"])] ∅ = Ok ∅
  /\ tag_items (lower "oh, Hi!") [("hi", PyList ["hello"])] ∅
     = Ok {[ "hello" := 1 ]}.
Proof. split; vm_compute; reflexivity. Qed.

(** ** Construction *)

Lemma check_entries_spec (entries : dict tagval) :
  match check_entries entries with
  | (table, None) =>
      table = map (fun kv => (fst kv, normalised (snd kv))) entries
      /\ Forall (fun kv => is_sequence (snd kv)) table
      /\ ~ Exists (fun kv => malformed (snd kv)) entries
  | (table, Some msg) =>
      exists phrase cls,
        In (phrase, Obj cls) entries /\ msg = bad_tags_message cls
  end.
Proof.
  induction entries as [| [phrase tags] entries IH]; cbn [check_entries].
  - repeat split; [constructor | intros H; inversion H].
  - destruct tags as [s | l | l | cls];
      try (destruct (check_entries entries) as [table [msg |]];
           [ destruct IH as (p & cls & Hin & ->);
             exists p, cls; split; [right; exact Hin | reflexivity]
           | destruct IH as (-> & Hseq & Hmal); cbn [map fst snd normalised];
             split; [reflexivity |]; split;
             [ constructor; [eexists; cbn [snd]; eauto | exact Hseq]
             | intros H; inversion H as [? ? [cls Hc] | ? ? H']; subst;
               [discriminate Hc | exact (Hmal H')] ] ]).
    exists phrase, cls. split; [left; reflexivity | reflexivity].
Qed.

Section Construction.

Variable on_enter_ : string -> option entry_hook.
Variable respond_from_ : string -> option response_hook.

(** What the constructor does once the default state is stored. *)
Lemma checks_outcome (self : ChatBot) :
  exists printed,
    printed_more self printed
    /\ (_check_states on_enter_ respond_from_ ;; _check_tags) self
       = match check_entries (TAGS self) with
         | (table, None) => Return tt (set_TAGS table printed)
         | (table, Some msg) => Raise (AssertionError msg) (set_TAGS table printed)
         end.
Proof.
  destruct (_check_states_prints on_enter_ respond_from_ self)
    as (printed & E & Hp).
  exists printed. split; [exact Hp |].
  unfold bind at 1. rewrite E.
  unfold _check_tags, bind, get, modify, ret, raise.
  destruct Hp as (_ & <- & _).
  destruct (check_entries (TAGS self)) as [table [msg |]]; reflexivity.
Qed.

Lemma __init___cases (cls_STATES : list string) (cls_TAGS : dict tagval)
    (console : list string) (default : string) :
  (cls_STATES = [] /\ mem default cls_STATES = false
   /\ __init__ on_enter_ respond_from_ cls_STATES cls_TAGS console default
      = Refused (IndexError "list index out of range") console)
  \/ exists console' printed,
       console' = (if mem default cls_STATES then console
                   else console ++ [absent_default_warning default (hd default cls_STATES)])%list
       /\ printed_more (mkChatBot cls_STATES cls_TAGS default default console') printed
       /\ __init__ on_enter_ respond_from_ cls_STATES cls_TAGS console default
          = match check_entries cls_TAGS with
            | (table, None) => Built (set_TAGS table printed)
            | (table, Some msg) => Refused (AssertionError msg) (stdout printed)
            end.
Proof.
  unfold __init__.
  destruct (mem default cls_STATES) eqn:Hmem.
  - right.
    destruct (checks_outcome (mkChatBot cls_STATES cls_TAGS default default console))
      as (printed & Hp & E).
    exists console, printed. split; [reflexivity |]. split; [exact Hp |].
    rewrite E. cbn [TAGS].
    destruct (check_entries cls_TAGS) as [table [msg |]]; reflexivity.
  - destruct cls_STATES as [| first rest]; [left; auto |].
    right.
    destruct (checks_outcome
                (mkChatBot (first :: rest) cls_TAGS default default
                   (console ++ [absent_default_warning default first])))
      as (printed & Hp & E).
    exists (console ++ [absent_default_warning default first])%list, printed.
    split; [reflexivity |]. split; [exact Hp |].
    rewrite E. cbn [TAGS].
    destruct (check_entries cls_TAGS) as [table [msg |]]; reflexivity.
Qed.

(** C7, as amended: a TAGS value that is neither a string nor a list or
    tuple makes the constructor fail; when the constructor returns, every
    bare string has become a one-element list, every list or tuple is kept
    as it was (an empty one too), and so every value is a list or a
    tuple. *)
Theorem malformed_tags_refused_others_normalised
    (cls_STATES : list string) (cls_TAGS : dict tagval)
    (console : list string) (default : string) :
  (Exists (fun kv => malformed (snd kv)) cls_TAGS ->
   exists e console',
     __init__ on_enter_ respond_from_ cls_STATES cls_TAGS console default
       = Refused e console')
  /\ (forall self,
        __init__ on_enter_ respond_from_ cls_STATES cls_TAGS console default
          = Built self ->
        TAGS self = map (fun kv => (fst kv, normalised (snd kv))) cls_TAGS
        /\ Forall (fun kv => is_sequence (snd kv)) (TAGS self)).
Proof.
  pose proof (check_entries_spec cls_TAGS) as Hspec.
  destruct (__init___cases cls_STATES cls_TAGS console default)
    as [(_ & _ & E) | (console' & printed & _ & _ & E)]; rewrite E.
  - split; [intros _; eauto | discriminate].
  - destruct (check_entries cls_TAGS) as [table [msg |]].
    + split; [intros _; eauto | discriminate].
    + destruct Hspec as (-> & Hseq & Hmal). split.
      * intros H. contradiction.
      * intros self [= <-]. split; [reflexivity | exact Hseq].
Qed.

(** With at least one declared state the warning is printed, naming the
    first of them, and the constructor goes on; it returns an engine
    unless the TAGS dictionary is malformed. *)
Lemma absent_default_warned_and_built
    (first : string) (rest : list string) (cls_TAGS : dict tagval)
    (console : list string) (default : string) :
  ~ In default (first :: rest) ->
  ~ Exists (fun kv => malformed (snd kv)) cls_TAGS ->
  exists self more,
    __init__ on_enter_ respond_from_ (first :: rest) cls_TAGS console default
      = Built self
    /\ stdout self
       = (console ++ absent_default_warning default first :: more)%list
    /\ default_state self = default /\ state self = default.
Proof.
  intros Hnot Hwell. apply mem_false in Hnot.
  pose proof (check_entries_spec cls_TAGS) as Hspec.
  destruct (__init___cases (first :: rest) cls_TAGS console default)
    as [(Habs & _) | (console' & printed & -> & Hp & E)]; [discriminate |].
  rewrite Hnot in Hp. cbn [hd] in Hp.
  destruct Hp as (_ & _ & Hd & Hs & more & Hout).
  cbn [default_state state stdout] in Hd, Hs, Hout.
  destruct (check_entries cls_TAGS) as [table [msg |]].
  - destruct Hspec as (p & cls & Hin & _). exfalso. apply Hwell.
    apply Stdlib.Lists.List.Exists_exists.
    exists (p, Obj cls). split; [exact Hin |].
    exists cls. reflexivity.
  - exists (set_TAGS table printed), more. split; [exact E |].
    cbn [set_TAGS stdout default_state state].
    rewrite Hout, <- app_assoc. auto.
Qed.

(** C8 fails when STATES is empty, which is what class [ChatBot] itself
    declares: building the warning evaluates [self.STATES[0]], and the
    constructor ends with an IndexError and nothing printed.  With a first
    state to name, the warning is printed and the constructor returns an
    engine (the TAGS dictionary being well formed). *)
Theorem empty_STATES_breaks_the_warning
    (cls_STATES : list string) (cls_TAGS : dict tagval)
    (console : list string) (default : string) :
  ~ In default cls_STATES ->
  match cls_STATES with
  | [] =>
      __init__ on_enter_ respond_from_ cls_STATES cls_TAGS console default
      = Refused (IndexError "list index out of range") console
  | first :: _ =>
      ~ Exists (fun kv => malformed (snd kv)) cls_TAGS ->
      exists self more,
        __init__ on_enter_ respond_from_ cls_STATES cls_TAGS console default
          = Built self
        /\ stdout self
           = (console ++ absent_default_warning default first :: more)%list
  end.
Proof.
  intros Hnot. destruct cls_STATES as [| first rest]; [reflexivity |].
  intros Hwell.
  destruct (absent_default_warned_and_built first rest cls_TAGS console default
              Hnot Hwell) as (self & more & E & Hout & _).
  exists self, more. split; [exact E | exact Hout].
Qed.

End Construction.

Lemma malformed_tags_refused_others_normalised_witness :
  exists e console',
    __init__ oxycsbot.on_enter_ oxycsbot.respond_from_ oxycsbot.STATES
      [("hi", Str "hello"); ("bye", Obj "int")] [] "waiting"
    = Refused e console'.
Proof.
  apply (proj1 (malformed_tags_refused_others_normalised
                  oxycsbot.on_enter_ oxycsbot.respond_from_ oxycsbot.STATES
                  [("hi", Str "hello"); ("bye", Obj "int")] [] "waiting")).
  apply Exists_cons_tl. apply Exists_cons_hd. exists "int". reflexivity.
Defined.

(** C7, as stated, fails: an empty list of tags passes [_check_tags] and
    stays in the table, so a phrase can map to an empty sequence. *)
Lemma empty_tag_list_is_accepted :
  __init__ oxycsbot.on_enter_ oxycsbot.respond_from_ oxycsbot.STATES
    [("hello", PyList [])] [] "waiting"
  = Built (mkChatBot oxycsbot.STATES [("hello", PyList [])] "waiting" "waiting" [])
  /\ ~ (forall on_enter_ respond_from_ cls_STATES cls_TAGS console default self,
          __init__ on_enter_ respond_from_ cls_STATES cls_TAGS console default
            = Built self ->
          forall phrase tags, In (phrase, tags) (TAGS self) ->
          exists tag l, tags = PyList (tag :: l) \/ tags = PyTuple (tag :: l)).
Proof.
  assert (__init__ oxycsbot.on_enter_ oxycsbot.respond_from_ oxycsbot.STATES
            [("hello", PyList [])] [] "waiting"
          = Built (mkChatBot oxycsbot.STATES [("hello", PyList [])]
                     "waiting" "waiting" [])) as E
    by (vm_compute; reflexivity).
  split; [exact E |].
  intros H.
  destruct (H _ _ _ _ _ _ _ E "hello" (PyList [])) as (tag & l & [Hl | Hl]);
    [left; reflexivity | discriminate Hl | discriminate Hl].
Qed.

(** A subclass that nominates a default state it did not declare is warned
    and built. *)
Example undeclared_default_is_warned :
  exists more,
    __init__ oxycsbot.on_enter_ oxycsbot.respond_from_ oxycsbot.STATES
      oxycsbot.TAGS [] "idle"
    = Built (mkChatBot oxycsbot.STATES (TAGS oxycsbot.instance) "idle" "idle"
               ("WARNING: The default state idle is listed as a state. Perhaps you mean waiting?"
                :: more)).
Proof. eexists. vm_compute. reflexivity. Qed.

Lemma empty_STATES_breaks_the_warning_witness :
  __init__ oxycsbot.on_enter_ oxycsbot.respond_from_ [] oxycsbot.TAGS []
    "waiting"
  = Refused (IndexError "list index out of range") [].
Proof.
  apply (empty_STATES_breaks_the_warning
           oxycsbot.on_enter_ oxycsbot.respond_from_ [] oxycsbot.TAGS []
           "waiting").
  simpl. tauto.
Defined.

(** * Further properties of the code *)

(** ** Letter case *)

Lemma Char_lower_idempotent (c : ascii) : Char.lower (Char.lower c) = Char.lower c.
Proof. destruct c as [[] [] [] [] [] [] [] []]; vm_compute; reflexivity. Qed.

Lemma Char_lower_is_word (c : ascii) : Char.is_word (Char.lower c) = Char.is_word c.
Proof. destruct c as [[] [] [] [] [] [] [] []]; vm_compute; reflexivity. Qed.

Lemma lower_idempotent (s : string) : lower (lower s) = lower s.
Proof.
  induction s as [| c s IH]; simpl; [reflexivity |].
  now rewrite Char_lower_idempotent, IH.
Qed.

Lemma phrase_pattern_lower (phrase : string) :
  phrase_pattern (lower phrase) = phrase_pattern phrase.
Proof. unfold phrase_pattern. now rewrite lower_idempotent. Qed.

(** X1: [_get_tags] gives a message and its lower-cased form the same
    result, and an item of the table has the same effect whether its
    phrase is written in lower case or not. *)
Theorem tagging_ignores_letter_case (message phrase : string) (tags : tagval)
    (rest : dict tagval) (counter : Counter) (self : ChatBot) :
  _get_tags (lower message) self = _get_tags message self
  /\ tag_items (lower message) ((lower phrase, tags) :: rest) counter
     = tag_items (lower message) ((phrase, tags) :: rest) counter.
Proof.
  split.
  - rewrite !_get_tags_reads, lower_idempotent. reflexivity.
  - cbn [tag_items]. rewrite phrase_pattern_lower. reflexivity.
Qed.

(** ** Messages without a word character *)

Lemma lower_chars (s : string) :
  list_ascii_of_string (lower s) = map Char.lower (list_ascii_of_string s).
Proof. induction s as [| c s IH]; simpl; [reflexivity | now rewrite IH]. Qed.

Lemma no_word_no_occurrence (p s : list ascii) (prev : option ascii) :
  Re.word_at prev = false ->
  forallb (fun c => negb (Char.is_word c)) s = true ->
  Literal.occurs_from p prev s = false.
Proof.
  revert prev. induction s as [| c s IH]; intros prev Hprev Hs;
    cbn [Literal.occurs_from]; unfold Literal.occurs_at, Literal.boundary.
  - simpl. rewrite Hprev. reflexivity.
  - cbn [forallb] in Hs. apply andb_true_iff in Hs. destruct Hs as [Hc Hs].
    apply negb_true_iff in Hc.
    replace (Re.word_at (head (c :: s))) with false by (simpl; now rewrite Hc).
    rewrite Hprev. cbn [xorb andb orb]. apply IH; [exact Hc | exact Hs].
Qed.

Lemma wordless_lowered (l : list ascii) :
  forallb (fun c => negb (Char.is_word c)) (map Char.lower l)
  = forallb (fun c => negb (Char.is_word c)) l.
Proof.
  induction l as [| c l IH]; simpl; [reflexivity |].
  now rewrite Char_lower_is_word, IH.
Qed.

(** X2: when no phrase of the table has a pattern character, a message
    without letters, digits and underscores (the empty message among
    them) gets the empty Counter. *)
Theorem wordless_message_gets_no_tag (message : string) (self : ChatBot) :
  Forall (fun kv => forallb plain_char (list_ascii_of_string (lower (fst kv))) = true)
         (TAGS self) ->
  forallb (fun c => negb (Char.is_word c)) (list_ascii_of_string message) = true ->
  _get_tags message self = Return ∅ self.
Proof.
  intros Hplain Hmsg. rewrite _get_tags_reads.
  assert (forall c, tag_items (lower message) (TAGS self) c = Ok c) as ->;
    [| reflexivity].
  induction Hplain as [| [phrase tags] entries Hp _ IH]; intros c; [reflexivity |].
  cbn [tag_items]. cbn [fst] in Hp.
  rewrite (plain_phrase_matched_literally _ _ Hp).
  unfold Literal.phrase_occurs. rewrite no_word_no_occurrence; [apply IH | reflexivity |].
  rewrite lower_chars, wordless_lowered. exact Hmsg.
Qed.

Lemma wordless_message_gets_no_tag_witness :
  let self := set_TAGS [("hi", PyList ["hello"]); ("what's up", PyList ["hello"])]
                oxycsbot.instance in
  _get_tags "?! ... :-)" self = Return ∅ self.
Proof.
  intros self. apply (wordless_message_gets_no_tag "?! ... :-)" self).
  - repeat constructor.
  - vm_compute. reflexivity.
Defined.

(** ** Phrases without pattern characters *)

(** X3: an item whose phrase has none of the characters
    [\ ( ) | * + ? . ^ $ [ {] adds its tags exactly when the phrase occurs
    in the message character for character, letter case apart, with a
    word boundary at each end. *)
Theorem plain_phrase_counted_where_it_occurs
    (phrase message : string) (tags : tagval) (rest : dict tagval)
    (counter : Counter) :
  forallb plain_char (list_ascii_of_string (lower phrase)) = true ->
  tag_items (lower message) ((phrase, tags) :: rest) counter
  = if Literal.phrase_occurs phrase message
    then match counter_update counter tags with
         | Ok counter' => tag_items (lower message) rest counter'
         | Err e => Err e
         end
    else tag_items (lower message) rest counter.
Proof.
  intros Hplain. cbn [tag_items].
  rewrite (plain_phrase_matched_literally _ _ Hplain).
  destruct (Literal.phrase_occurs phrase message); reflexivity.
Qed.

Lemma plain_phrase_counted_where_it_occurs_witness :
  tag_items (lower "Well, ALL RIGHT then") [("all right", PyList ["yes"])] ∅
  = if Literal.phrase_occurs "all right" "Well, ALL RIGHT then"
    then match counter_update ∅ (PyList ["yes"]) with
         | Ok counter' => tag_items (lower "Well, ALL RIGHT then") [] counter'
         | Err e => Err e
         end
    else tag_items (lower "Well, ALL RIGHT then") [] ∅.
Proof.
  apply (plain_phrase_counted_where_it_occurs
           "all right" "Well, ALL RIGHT then" (PyList ["yes"]) [] ∅).
  vm_compute. reflexivity.
Defined.

(** ** A phrase that is not a pattern *)

Lemma usable_spec (kv : string * tagval) :
  usable kv = true ->
  (exists r, Re.compile (phrase_pattern (fst kv)) = Re.Compiled r)
  /\ (exists l, snd kv = PyList l \/ snd kv = PyTuple l).
Proof.
  unfold usable, compiles, sequence. intros H.
  apply andb_true_iff in H. destruct H as [Hc Hs]. split.
  - destruct (Re.compile _) as [r | |]; try discriminate. eauto.
  - destruct (snd kv) as [| l | l |]; try discriminate; eauto.
Qed.

(** With usable items only, the loop returns for every message. *)
Lemma usable_items_tagged (msg : string) (entries : dict tagval) (counter : Counter) :
  forallb usable entries = true ->
  exists counter', tag_items msg entries counter = Ok counter'.
Proof.
  revert counter. induction entries as [| [phrase tags] entries IH];
    intros counter H; cbn [tag_items forallb] in *.
  - eauto.
  - apply andb_true_iff in H. destruct H as [Hu H].
    destruct (usable_spec _ Hu) as ((r & Hr) & (l & Hl)). cbn [fst snd] in Hr, Hl.
    unfold Re.search. rewrite Hr.
    destruct (Re.scan _ _ _); [| apply IH, H].
    destruct Hl as [-> | ->]; cbn [counter_update]; apply IH, H.
Qed.

(** X4: one phrase that [re] rejects makes [_get_tags] raise for every
    message: when the items in front of it are usable, the call raises the
    [re.error] of that phrase and leaves the engine as it was, whatever
    the message is and whatever follows in the table. *)
Theorem rejected_phrase_fails_every_message
    (before rest : dict tagval) (phrase reason message : string)
    (tags : tagval) (self : ChatBot) :
  forallb usable before = true ->
  Re.compile (phrase_pattern phrase) = Re.Error reason ->
  TAGS self = (before ++ (phrase, tags) :: rest)%list ->
  _get_tags message self = Raise (ReError reason) self.
Proof.
  intros Hbefore Hbad Htable. rewrite _get_tags_reads, Htable, tag_items_app.
  destruct (usable_items_tagged (lower message) before ∅ Hbefore) as [c ->].
  cbn [tag_items]. unfold Re.search. rewrite Hbad. reflexivity.
Qed.

Lemma rejected_phrase_fails_every_message_witness :
  _get_tags "good morning"
    (set_TAGS [("hi", PyList ["hello"]); (":)", PyList ["happy"]); ("bye", PyList ["bye"])]
       oxycsbot.instance)
  = Raise (ReError "unbalanced parenthesis")
      (set_TAGS [("hi", PyList ["hello"]); (":)", PyList ["happy"]); ("bye", PyList ["bye"])]
         oxycsbot.instance).
Proof.
  apply (rejected_phrase_fails_every_message
           [("hi", PyList ["hello"])] [("bye", PyList ["bye"])]
           ":)" "unbalanced parenthesis" "good morning" (PyList ["happy"])).
  - vm_compute. reflexivity.
  - vm_compute. reflexivity.
  - reflexivity.
Defined.

(** ** The order of the table and the tags that come out *)

Lemma counter_incr_comm (counter : Counter) (a b : string) :
  counter_incr (counter_incr counter a) b = counter_incr (counter_incr counter b) a.
Proof.
  destruct (string_dec a b) as [-> | Hne]; [reflexivity |].
  unfold counter_incr, count.
  rewrite !lookup_insert_ne by congruence.
  apply insert_insert_ne. congruence.
Qed.

Lemma fold_incr_incr (l : list string) (counter : Counter) (a : string) :
  fold_left counter_incr l (counter_incr counter a)
  = counter_incr (fold_left counter_incr l counter) a.
Proof.
  revert counter. induction l as [| b l IH]; intros counter; simpl; [reflexivity |].
  rewrite <- IH, counter_incr_comm. reflexivity.
Qed.

Lemma fold_incr_comm (l1 l2 : list string) (counter : Counter) :
  fold_left counter_incr l2 (fold_left counter_incr l1 counter)
  = fold_left counter_incr l1 (fold_left counter_incr l2 counter).
Proof.
  revert counter. induction l1 as [| a l1 IH]; intros counter; simpl; [reflexivity |].
  rewrite IH, fold_incr_incr. reflexivity.
Qed.

Lemma counter_update_comm (counter c1 c12 : Counter) (t1 t2 : tagval) :
  counter_update counter t1 = Ok c1 ->
  counter_update c1 t2 = Ok c12 ->
  exists c2, counter_update counter t2 = Ok c2 /\ counter_update c2 t1 = Ok c12.
Proof.
  destruct t1 as [s1 | l1 | l1 |], t2 as [s2 | l2 | l2 |]; simpl;
    try discriminate; intros [= <-] [= <-];
    eexists; (split; [reflexivity |]); f_equal; apply fold_incr_comm.
Qed.

(** X5: the order of the items in TAGS does not matter: when [_get_tags]
    returns for a table, it returns the same Counter for every
    rearrangement of that table. *)
Theorem table_order_is_immaterial (msg : string) (entries entries' : dict tagval) :
  Permutation entries entries' ->
  forall counter counter',
    tag_items msg entries counter = Ok counter' ->
    tag_items msg entries' counter = Ok counter'.
Proof.
  induction 1 as [| [phrase tags] l l' _ IH
                  | [p1 t1] [p2 t2] l
                  | l l' l'' _ IH1 _ IH2]; intros counter counter'.
  - auto.
  - cbn [tag_items]. destruct (Re.search _ _) as [[|] | |]; try discriminate.
    + destruct (counter_update counter tags); [apply IH | discriminate].
    + apply IH.
  - cbn [tag_items].
    destruct (Re.search (phrase_pattern p1) msg) as [[|] | |],
             (Re.search (phrase_pattern p2) msg) as [[|] | |];
      try discriminate; try (intros H; exact H).
    + destruct (counter_update counter t2) as [c2 |] eqn:E2; [| discriminate].
      destruct (counter_update c2 t1) as [c21 |] eqn:E1; [| discriminate].
      destruct (counter_update_comm _ _ _ _ _ E2 E1) as (c1 & -> & ->).
      intros H; exact H.
    + destruct (counter_update counter t2); discriminate.
    + destruct (counter_update counter t2); discriminate.
  - intros H. apply IH2, IH1, H.
Qed.

Lemma table_order_is_immaterial_witness :
  tag_items (lower "Yes, sure") [("sure", PyList ["yes"; "keen"]); ("yes", PyList ["yes"])] ∅
  = Ok {[ "yes" := 2; "keen" := 1 ]}.
Proof.
  apply (table_order_is_immaterial (lower "Yes, sure")
           [("yes", PyList ["yes"]); ("sure", PyList ["yes"; "keen"])]
           [("sure", PyList ["yes"; "keen"]); ("yes", PyList ["yes"])]).
  - apply perm_swap.
  - vm_compute. reflexivity.
Defined.

Lemma positive_incr (counter : Counter) (t : string) :
  positive counter -> positive (counter_incr counter t).
Proof.
  intros Hpos tag n. unfold counter_incr.
  destruct (string_dec t tag) as [-> | Hne].
  - rewrite lookup_insert_eq. intros [= <-]. lia.
  - rewrite lookup_insert_ne by assumption. apply Hpos.
Qed.

Lemma positive_fold (l : list string) (counter : Counter) :
  positive counter -> positive (fold_left counter_incr l counter).
Proof.
  revert counter. induction l as [| t l IH]; intros counter H; simpl;
    [exact H | apply IH, positive_incr, H].
Qed.

Lemma positive_tag_items (msg : string) (entries : dict tagval) (counter counter' : Counter) :
  positive counter -> tag_items msg entries counter = Ok counter' -> positive counter'.
Proof.
  revert counter. induction entries as [| [phrase tags] entries IH];
    intros counter Hpos; cbn [tag_items].
  - intros [= <-]. exact Hpos.
  - destruct (Re.search _ _) as [[|] | |]; try discriminate; [| apply IH, Hpos].
    destruct tags as [s | l | l | cls]; cbn [counter_update]; try discriminate;
      apply IH, positive_fold, Hpos.
Qed.

Lemma contains_count (counter : Counter) (tag : string) :
  positive counter -> (contains counter tag = true <-> 0 < count counter tag).
Proof.
  intros Hpos. unfold contains, count. rewrite bool_decide_eq_true.
  destruct (counter !! tag) as [n |] eqn:E; simpl.
  - split; [intros _; eapply Hpos; exact E | intros _; eauto].
  - split; [intros [x Hx]; discriminate | lia].
Qed.

Lemma tally_positive (msg : string) (entries : dict tagval) (tag : string) :
  0 < tally msg entries tag
  <-> exists phrase tags,
        In (phrase, tags) entries
        /\ Re.search (phrase_pattern phrase) msg = Re.Found true
        /\ 0 < increments tags tag.
Proof.
  induction entries as [| [phrase tags] entries IH]; cbn [tally].
  - split; [lia | intros (? & ? & [] & _)].
  - split.
    + intros H.
      destruct (Re.search (phrase_pattern phrase) msg) as [[|] | |] eqn:E;
        try (cbn [Nat.add] in H; apply IH in H;
             destruct H as (p & t & Hin & Hs & Hi);
             exists p, t; split; [right; exact Hin | auto]).
      destruct (Nat.eq_dec (increments tags tag) 0) as [Hz | Hnz].
      * rewrite Hz in H. cbn [Nat.add] in H. apply IH in H.
        destruct H as (p & t & Hin & Hs & Hi).
        exists p, t. split; [right; exact Hin | auto].
      * exists phrase, tags. split; [left; reflexivity |]. split; [exact E | lia].
    + intros (p & t & [[= -> ->] | Hin] & Hs & Hi).
      * rewrite Hs. lia.
      * assert (0 < tally msg entries tag) by (apply IH; eauto). lia.
Qed.

(** X6: a tag is a key of the Counter that [_get_tags] returns exactly
    when some phrase found in the message carries it; no key counts
    zero. *)
Theorem tag_present_iff_phrase_found
    (msg : string) (entries : dict tagval) (counter : Counter) (tag : string) :
  tag_items msg entries ∅ = Ok counter ->
  (contains counter tag = true
   <-> exists phrase tags,
         In (phrase, tags) entries
         /\ Re.search (phrase_pattern phrase) msg = Re.Found true
         /\ 0 < increments tags tag)
  /\ (forall n, counter !! tag = Some n -> 0 < n).
Proof.
  intros H.
  assert (positive counter) as Hpos.
  { eapply positive_tag_items; [| exact H]. intros t n. rewrite lookup_empty.
    discriminate. }
  split; [| intros n; apply Hpos].
  rewrite (contains_count _ _ Hpos), (tag_items_count _ _ _ _ H).
  unfold count at 1. rewrite lookup_empty. cbn [default Nat.add].
  apply tally_positive.
Qed.

Lemma tag_present_iff_phrase_found_witness :
  (contains {[ "hello" := 1 ]} "yes" = true
   <-> exists phrase tags,
         In (phrase, tags) [("hi", PyList ["hello"]); ("ok", PyList ["yes"])]
         /\ Re.search (phrase_pattern phrase) (lower "Hi there") = Re.Found true
         /\ 0 < increments tags "yes")
  /\ (forall n, ({[ "hello" := 1 ]} : Counter) !! "yes" = Some n -> 0 < n).
Proof.
  apply (tag_present_iff_phrase_found (lower "Hi there")
           [("hi", PyList ["hello"]); ("ok", PyList ["yes"])]
           {[ "hello" := 1 ]} "yes").
  vm_compute. reflexivity.
Defined.

(** ** The two checks of the constructor *)

Lemma check_entries_keys (entries : dict tagval) :
  map fst (fst (check_entries entries)) = map fst entries.
Proof.
  induction entries as [| [phrase tags] entries IH]; cbn [check_entries];
    [reflexivity |].
  destruct tags as [s | l | l | cls]; try reflexivity;
    destruct (check_entries entries) as [table failed]; cbn [fst map] in *;
    now rewrite IH.
Qed.

Lemma check_entries_values (entries : dict tagval) (phrase : string) (tags : tagval) :
  In (phrase, tags) (fst (check_entries entries)) ->
  In (phrase, tags) entries
  \/ exists s, tags = PyList [s] /\ In (phrase, Str s) entries.
Proof.
  induction entries as [| [p t] entries IH]; cbn [check_entries]; [intros [] |].
  destruct t as [s | l | l | cls];
    try (destruct (check_entries entries) as [table failed]; cbn [fst] in *;
         intros [[= <- <-] | Hin];
         [ first [ left; left; reflexivity
                 | right; eexists; split; [reflexivity | left; reflexivity] ]
         | destruct (IH Hin) as [H | (s' & -> & H)];
           [ left; right; exact H
           | right; exists s'; split; [reflexivity | right; exact H] ] ]).
  cbn [fst]. intros H. left. exact H.
Qed.

(** X7: [_check_tags] never adds, drops or reorders a phrase, whether it
    returns or raises; a value it leaves is the value it found, or the
    one-element list made of the string it found. *)
Theorem _check_tags_keeps_the_phrases (self : ChatBot) :
  map fst (TAGS (after (_check_tags self))) = map fst (TAGS self)
  /\ forall phrase tags,
       In (phrase, tags) (TAGS (after (_check_tags self))) ->
       In (phrase, tags) (TAGS self)
       \/ exists s, tags = PyList [s] /\ In (phrase, Str s) (TAGS self).
Proof.
  assert (TAGS (after (_check_tags self)) = fst (check_entries (TAGS self))) as ->.
  { unfold _check_tags, bind, get, modify, ret, raise.
    destruct (check_entries (TAGS self)) as [table [msg |]]; reflexivity. }
  split; [apply check_entries_keys | apply check_entries_values].
Qed.

Lemma check_entries_sequences (table : dict tagval) :
  Forall (fun kv => is_sequence (snd kv)) table ->
  check_entries table = (table, None).
Proof.
  induction 1 as [| [phrase tags] table (l & [Hl | Hl]) _ IH];
    cbn [check_entries]; [reflexivity | |];
    cbn [snd] in Hl; subst tags; rewrite IH; reflexivity.
Qed.

(** X8: once [_check_tags] has returned, running it again changes
    nothing: the dictionary it leaves passes the check as it is (so a
    second instance of the class, which shares TAGS, is checked against
    the rewritten dictionary). *)
Theorem _check_tags_twice (self self' : ChatBot) :
  _check_tags self = Return tt self' ->
  _check_tags self' = Return tt self'.
Proof.
  unfold _check_tags, bind, get, modify, ret, raise.
  pose proof (check_entries_spec (TAGS self)) as Hspec.
  destruct (check_entries (TAGS self)) as [table [msg |]]; [discriminate |].
  destruct Hspec as (_ & Hseq & _). intros [= <-]. cbn [TAGS set_TAGS].
  rewrite (check_entries_sequences _ Hseq). destruct self. reflexivity.
Qed.

Lemma _check_tags_twice_witness :
  _check_tags (set_TAGS (fst (check_entries oxycsbot.TAGS)) oxycsbot.instance)
  = Return tt (set_TAGS (fst (check_entries oxycsbot.TAGS)) oxycsbot.instance).
Proof.
  apply (_check_tags_twice (set_TAGS oxycsbot.TAGS oxycsbot.instance)).
  vm_compute. reflexivity.
Defined.

Section Checks.

Variable on_enter_ : string -> option entry_hook.
Variable respond_from_ : string -> option response_hook.

Lemma for_each_silent {A} (f : A -> M unit) (l : list A) (self : ChatBot) :
  (forall x, In x l -> f x self = Return tt self) ->
  for_each f l self = Return tt self.
Proof.
  induction l as [| x l IH]; intros H; cbn [for_each]; [reflexivity |].
  unfold bind. rewrite (H x) by (left; reflexivity).
  apply IH. intros y Hy. apply H. right. exact Hy.
Qed.

Lemma printed_more_length (a b : ChatBot) :
  printed_more a b -> length (stdout a) <= length (stdout b).
Proof.
  intros (_ & _ & _ & _ & more & ->). rewrite length_app. lia.
Qed.

Lemma for_each_grows {A} (f : A -> M unit) (l : list A) (x : A) :
  (forall y self, exists self', f y self = Return tt self' /\ printed_more self self') ->
  (forall self, length (stdout self) < length (stdout (after (f x self)))) ->
  In x l ->
  forall self, length (stdout self) < length (stdout (after (for_each f l self))).
Proof.
  intros Hf Hx. induction l as [| y l IH]; intros Hin self; [destruct Hin |].
  cbn [for_each]. unfold bind.
  destruct (Hf y self) as (s1 & E1 & Hp1). rewrite E1.
  apply printed_more_length in Hp1.
  destruct Hin as [-> | Hin].
  - specialize (Hx self). rewrite E1 in Hx. cbn [after] in Hx.
    destruct (for_each_prints f l Hf s1) as (s2 & -> & Hp2).
    apply printed_more_length in Hp2. cbn [after]. lia.
  - specialize (IH Hin s1). lia.
Qed.

Lemma check_prefix_grows (st prefix : string) (self : ChatBot) :
  hasattr on_enter_ respond_from_ prefix st = false ->
  length (stdout self)
  < length (stdout (after (check_prefix on_enter_ respond_from_ st prefix self))).
Proof.
  intros H. unfold check_prefix. rewrite H.
  cbn [after modify print_line stdout]. rewrite length_app. cbn [length]. lia.
Qed.

(** A declared state that lacks a hook it needs makes the console grow. *)
Lemma _check_states_grows (st prefix : string) (self : ChatBot) :
  In st (STATES self) ->
  In prefix ((if String.eqb st (default_state self) then [] else ["on_enter"])
             ++ ["respond_from"])%list ->
  hasattr on_enter_ respond_from_ prefix st = false ->
  length (stdout self)
  < length (stdout (after (_check_states on_enter_ respond_from_ self))).
Proof.
  intros Hst Hprefix Hmissing. unfold _check_states, bind, get.
  apply for_each_grows with (x := st); [| | exact Hst].
  - intros y s. apply for_each_prints. intros p s'. apply check_prefix_prints.
  - intros s. apply for_each_grows with (x := prefix); [| | exact Hprefix].
    + intros p s'. apply check_prefix_prints.
    + intros s'. apply check_prefix_grows. exact Hmissing.
Qed.

(** X9: [_check_states] prints nothing and leaves the engine as it was
    exactly when every declared state has its response hook and every
    declared state but the default one has its entry hook: a silent
    construction means that no declared state lacks a hook. *)
Theorem _check_states_silent_iff_complete (self : ChatBot) :
  _check_states on_enter_ respond_from_ self = Return tt self
  <-> (forall st, In st (STATES self) ->
         is_Some (respond_from_ st)
         /\ (st <> default_state self -> is_Some (on_enter_ st))).
Proof.
  split.
  - intros Hsilent st Hst.
    assert (forall prefix,
              In prefix ((if String.eqb st (default_state self) then []
                          else ["on_enter"]) ++ ["respond_from"])%list ->
              hasattr on_enter_ respond_from_ prefix st = true) as Hhas.
    { intros prefix Hp.
      destruct (hasattr on_enter_ respond_from_ prefix st) eqn:E; [reflexivity |].
      pose proof (_check_states_grows st prefix self Hst Hp E) as Hgrow.
      rewrite Hsilent in Hgrow. cbn [after] in Hgrow. lia. }
    split.
    + assert (hasattr on_enter_ respond_from_ "respond_from" st = true) as H
        by (apply Hhas, in_or_app; right; left; reflexivity).
      unfold hasattr in H. cbn [String.eqb Ascii.eqb Bool.eqb] in H.
      apply bool_decide_eq_true in H. exact H.
    + intros Hne. apply String.eqb_neq in Hne.
      assert (hasattr on_enter_ respond_from_ "on_enter" st = true) as H
        by (apply Hhas, in_or_app; left; rewrite Hne; left; reflexivity).
      unfold hasattr in H. cbn [String.eqb Ascii.eqb Bool.eqb] in H.
      apply bool_decide_eq_true in H. exact H.
  - intros Hall. unfold _check_states, bind, get.
    apply for_each_silent. intros st Hst.
    destruct (Hall st Hst) as [Hr He].
    apply for_each_silent. intros prefix Hp.
    unfold check_prefix, hasattr.
    apply in_app_or in Hp. destruct Hp as [Hp | [<- | []]].
    + destruct (String.eqb st (default_state self)) eqn:E; [destruct Hp |].
      destruct Hp as [<- | []]. apply String.eqb_neq in E.
      cbn [String.eqb Ascii.eqb Bool.eqb].
      rewrite bool_decide_eq_true_2 by (apply He, E). reflexivity.
    + cbn [String.eqb Ascii.eqb Bool.eqb].
      rewrite bool_decide_eq_true_2 by exact Hr. reflexivity.
Qed.

Lemma for_each_keeps_line {A} (f : A -> M unit) (l : list A) (line : string) :
  (forall x self, exists self', f x self = Return tt self' /\ printed_more self self') ->
  forall self, In line (stdout self) ->
  In line (stdout (after (for_each f l self))).
Proof.
  intros Hf self Hin.
  destruct (for_each_prints f l Hf self) as (self' & -> & _ & _ & _ & _ & more & Hout).
  cbn [after]. rewrite Hout. apply in_or_app. left. exact Hin.
Qed.

Lemma for_each_prints_line {A} (f : A -> M unit) (l : list A) (x : A) (line : string) :
  (forall y self, exists self', f y self = Return tt self' /\ printed_more self self') ->
  (forall self, In line (stdout (after (f x self)))) ->
  In x l ->
  forall self, In line (stdout (after (for_each f l self))).
Proof.
  intros Hf Hx. induction l as [| y l IH]; intros Hin self; [destruct Hin |].
  cbn [for_each]. unfold bind.
  destruct (Hf y self) as (s1 & E1 & _). rewrite E1.
  destruct Hin as [-> | Hin].
  - specialize (Hx self). rewrite E1 in Hx. cbn [after] in Hx.
    apply for_each_keeps_line; assumption.
  - apply IH. exact Hin.
Qed.

(** X10: for a declared state without response hook, and for a declared
    state other than the default one without entry hook, the console
    holds the warning that names the state and the missing method once
    [_check_states] is done; the check itself never raises. *)
Theorem _check_states_warns_of_missing_hook (st prefix : string) (self : ChatBot) :
  In st (STATES self) ->
  (prefix = "respond_from" /\ respond_from_ st = None)
  \/ (prefix = "on_enter" /\ on_enter_ st = None /\ st <> default_state self) ->
  exists self',
    _check_states on_enter_ respond_from_ self = Return tt self'
    /\ In (missing_hook_warning st prefix) (stdout self').
Proof.
  intros Hst Hmissing.
  destruct (_check_states_prints on_enter_ respond_from_ self) as (self' & E & _).
  exists self'. split; [exact E |].
  change self' with (after (Return tt self')). rewrite <- E.
  unfold _check_states, bind, get.
  apply for_each_prints_line with (x := st); [| | exact Hst].
  - intros y s. apply for_each_prints. intros p s'. apply check_prefix_prints.
  - intros s.
    apply for_each_prints_line with (x := prefix).
    + intros p s'. apply check_prefix_prints.
    + intros s'. unfold check_prefix, hasattr.
      destruct Hmissing as [(-> & Hr) | (-> & He & _)];
        cbn [String.eqb Ascii.eqb Bool.eqb].
      * rewrite Hr. rewrite bool_decide_eq_false_2 by (intros [x Hx]; discriminate).
        cbn [after modify print_line stdout]. apply in_or_app. right. left. reflexivity.
      * rewrite He. rewrite bool_decide_eq_false_2 by (intros [x Hx]; discriminate).
        cbn [after modify print_line stdout]. apply in_or_app. right. left. reflexivity.
    + destruct Hmissing as [(-> & _) | (-> & _ & Hne)].
      * apply in_or_app. right. left. reflexivity.
      * apply String.eqb_neq in Hne. rewrite Hne. left. reflexivity.
Qed.

(** X11: when the constructor returns, the engine is in the default state
    it was given, STATES is the list of the class, TAGS has the phrases of
    the class in their order, and everything that was on the console is
    still there, in front of the warnings. *)
Theorem __init___leaves_default_engine
    (cls_STATES : list string) (cls_TAGS : dict tagval)
    (console : list string) (default : string) (self : ChatBot) :
  __init__ on_enter_ respond_from_ cls_STATES cls_TAGS console default = Built self ->
  default_state self = default /\ state self = default
  /\ STATES self = cls_STATES
  /\ map fst (TAGS self) = map fst cls_TAGS
  /\ exists warnings, stdout self = (console ++ warnings)%list.
Proof.
  destruct (__init___cases on_enter_ respond_from_ cls_STATES cls_TAGS console default)
    as [(_ & _ & ->) | (console' & printed & Hc & Hp & ->)]; [discriminate |].
  pose proof (check_entries_keys cls_TAGS) as Hkeys.
  destruct (check_entries cls_TAGS) as [table [msg |]]; [discriminate |].
  intros [= <-]. cbn [fst] in Hkeys.
  destruct Hp as (Hs & _ & Hd & Hst & more & Hout).
  cbn [STATES default_state state stdout] in Hs, Hd, Hst, Hout.
  cbn [set_TAGS default_state state STATES TAGS stdout].
  repeat split; try congruence.
  rewrite Hout, Hc. destruct (mem default cls_STATES).
  - exists more. reflexivity.
  - eexists. rewrite <- app_assoc. reflexivity.
Qed.

End Checks.

Lemma _check_states_silent_iff_complete_witness :
  _check_states oxycsbot.on_enter_ oxycsbot.respond_from_ oxycsbot.instance
  = Return tt oxycsbot.instance.
Proof.
  apply (_check_states_silent_iff_complete
           oxycsbot.on_enter_ oxycsbot.respond_from_ oxycsbot.instance).
  intros st Hst. vm_compute in Hst.
  repeat (destruct Hst as [<- | Hst];
          [split; [eexists; reflexivity
                  | intros Hne; first [eexists; reflexivity
                                      | exfalso; apply Hne; reflexivity]] |]).
  destruct Hst.
Defined.

Lemma _check_states_warns_of_missing_hook_witness :
  exists self',
    _check_states Stuck.on_enter_ (fun _ => None) Stuck.busy = Return tt self'
    /\ In (missing_hook_warning "busy" "on_enter") (stdout self').
Proof.
  apply (_check_states_warns_of_missing_hook
           Stuck.on_enter_ (fun _ => None) "busy" "on_enter" Stuck.busy).
  - vm_compute. tauto.
  - right. split; [reflexivity |]. split; [reflexivity | discriminate].
Defined.

Lemma __init___leaves_default_engine_witness :
  default_state oxycsbot.instance = "waiting"
  /\ state oxycsbot.instance = "waiting"
  /\ STATES oxycsbot.instance = oxycsbot.STATES
  /\ map fst (TAGS oxycsbot.instance) = map fst oxycsbot.TAGS
  /\ exists warnings, stdout oxycsbot.instance = ([] ++ warnings)%list.
Proof.
  apply (__init___leaves_default_engine
           oxycsbot.on_enter_ oxycsbot.respond_from_ oxycsbot.STATES
           oxycsbot.TAGS [] "waiting" oxycsbot.instance).
  vm_compute. reflexivity.
Defined.

(** ** After [finish] *)

Section Reentry.

Variable respond_from_ : string -> option response_hook.
Variable finish_ : string -> option completion_hook.

(** X12: after any completed [finish], the next message is answered by
    the response hook of the default state, whatever state the engine was
    in before. *)
Theorem respond_after_finish_uses_default_hook
    (manner message response : string) (hook : response_hook)
    (tags : Counter) (self self' : ChatBot) :
  finish finish_ manner self = Return response self' ->
  respond_from_ (default_state self') = Some hook ->
  tag_items (lower message) (TAGS self') ∅ = Ok tags ->
  respond respond_from_ message self' = hook message tags self'.
Proof.
  intros Hfinish Hhook Htags.
  assert (state self' = default_state self') as Hstate.
  { revert Hfinish. unfold finish, bind, getattr, get, modify, ret, raise.
    destruct (finish_ manner) as [h |]; simpl; [| discriminate].
    destruct (h self); [| discriminate]. intros [= _ <-]. reflexivity. }
  unfold respond, bind, get, getattr, ret. rewrite Hstate, Hhook. simpl.
  rewrite _get_tags_reads, Htags. reflexivity.
Qed.

End Reentry.

Lemma respond_after_finish_uses_default_hook_witness :
  exists hook,
    oxycsbot.respond_from_ "waiting" = Some hook
    /\ respond oxycsbot.respond_from_ "Hey!" oxycsbot.instance
       = hook "Hey!" {[ "hello" := 1 ]} oxycsbot.instance.
Proof.
  eexists. split; [reflexivity |].
  apply (respond_after_finish_uses_default_hook
           oxycsbot.respond_from_ oxycsbot.finish_ "reject" "Hey!"
           "Ok, I understand. Thank you for your time." _ {[ "hello" := 1 ]}
           (set_state "thoughts_2" oxycsbot.instance) oxycsbot.instance).
  - reflexivity.
  - reflexivity.
  - vm_compute. reflexivity.
Defined.

(** ** The dialogue of [oxycsbot] *)

Lemma oxycsbot_items_usable : forallb usable (TAGS oxycsbot.instance) = true.
Proof. vm_compute. reflexivity. Qed.

(** Every declared state has its response hook, and that hook returns for
    every message and every Counter, in a declared state. *)
Lemma oxycsbot_hooks_total (st : string) :
  In st oxycsbot.STATES ->
  exists hook,
    oxycsbot.respond_from_ st = Some hook
    /\ forall message tags out,
         exists response st',
           hook message tags (oxycsbot_in st out)
             = Return response (oxycsbot_in st' out)
           /\ In st' oxycsbot.STATES.
Proof.
  intros Hst. vm_compute in Hst.
  repeat (destruct Hst as [<- | Hst];
          [eexists; split; [reflexivity |]; intros message t out; cbv beta;
           destruct (contains t "hello"), (contains t "yes"), (contains t "no");
           eexists _, _; (split; [reflexivity | vm_compute; tauto]) |]).
  destruct Hst.
Qed.

(** X13: [oxycsbot] answers every message from every declared state:
    [respond] returns a string, leaves the engine in a declared state and
    changes nothing else (every state its hooks go to is declared and has
    its entry hook, every manner they finish with has its function, and
    every phrase of TAGS is a pattern). *)
Theorem oxycsbot_answers_every_message
    (message st : string) (out : list string) :
  In st oxycsbot.STATES ->
  exists response st',
    oxycsbot.respond message (oxycsbot_in st out)
      = Return response (oxycsbot_in st' out)
    /\ In st' oxycsbot.STATES.
Proof.
  intros Hst.
  destruct (oxycsbot_hooks_total st Hst) as (hook & Hlookup & Hhook).
  destruct (usable_items_tagged (lower message) (TAGS oxycsbot.instance) ∅
              oxycsbot_items_usable) as [tags Htags].
  unfold oxycsbot.respond, respond, bind, get, getattr, ret.
  cbn [state oxycsbot_in]. rewrite Hlookup.
  rewrite _get_tags_reads. cbn [TAGS oxycsbot_in]. rewrite Htags.
  apply Hhook.
Qed.

Lemma oxycsbot_answers_every_message_witness :
  exists response st',
    oxycsbot.respond "Sounds good" (oxycsbot_in "increase_reason_2" [])
      = Return response (oxycsbot_in st' [])
    /\ In st' oxycsbot.STATES.
Proof.
  apply (oxycsbot_answers_every_message "Sounds good" "increase_reason_2" []).
  vm_compute. tauto.
Defined.

(** ** The read-print loop *)

Section ChatLoop.

Variable respond_from_ : string -> option response_hook.
Variable class_name : string.

(** X14: [chat] reads the lines in order and never answers an exit word:
    it stops at the first line that is "exit" or "quit" in any letter
    case and leaves what follows unread; when it ends another way, none
    of the lines it read was an exit word. *)
Theorem chat_stops_at_first_exit_word (stdin : list string) (self : ChatBot) :
  match chat respond_from_ class_name stdin self with
  | Stopped _ unread =>
      exists answered word,
        stdin = (answered ++ word :: unread)%list
        /\ is_exit word = true
        /\ Forall (fun message => is_exit message = false) answered
  | SystemExit _ unread | Uncaught _ _ unread =>
      exists read,
        stdin = (read ++ unread)%list
        /\ Forall (fun message => is_exit message = false) read
  end.
Proof.
  revert self. induction stdin as [| message rest IH]; intros self; cbn [chat].
  - exists []. split; [reflexivity | constructor].
  - destruct (is_exit message) eqn:Hexit.
    + exists [], message. repeat split; [exact Hexit | constructor].
    + destruct (respond respond_from_ message _) as [response answered | e failed].
      * match goal with |- context [chat _ _ rest ?s] => specialize (IH s) end.
        destruct (chat respond_from_ class_name rest _) as [s u | s u | e s u].
        -- destruct IH as (answered' & word & -> & Hw & Hall).
           exists (message :: answered'), word.
           repeat split; [exact Hw | constructor; assumption].
        -- destruct IH as (read & -> & Hall).
           exists (message :: read). split; [reflexivity | constructor; assumption].
        -- destruct IH as (read & -> & Hall).
           exists (message :: read). split; [reflexivity | constructor; assumption].
      * destruct (interrupts e); exists [message];
          (split; [reflexivity | constructor; [exact Hexit | constructor]]).
Qed.

End ChatLoop.

(** The exit words are recognised whatever their letter case, and only
    as the whole line. *)
Lemma is_exit_spec (message : string) :
  is_exit message = true <-> lower message = "exit" \/ lower message = "quit".
Proof.
  unfold is_exit. rewrite mem_In. cbn [In]. intuition congruence.
Qed.

(** ** The whole script *)

Lemma oxycsbot_new_any_console (console : list string) :
  oxycsbot.new console = Built (oxycsbot_in "waiting" console).
Proof. vm_compute. reflexivity. Qed.

(** The loop of an [oxycsbot] in a declared state. *)
Lemma oxycsbot_chat_ends_well (stdin : list string) :
  forall st out, In st oxycsbot.STATES ->
  match chat oxycsbot.respond_from_ "oxycsbot" stdin (oxycsbot_in st out) with
  | Stopped self unread =>
      In (state self) oxycsbot.STATES
      /\ exists answered word,
           stdin = (answered ++ word :: unread)%list /\ is_exit word = true
           /\ Forall (fun message => is_exit message = false) answered
  | SystemExit self unread =>
      In (state self) oxycsbot.STATES /\ unread = []
      /\ Forall (fun message => is_exit message = false) stdin
  | Uncaught _ _ _ => False
  end.
Proof.
  induction stdin as [| message rest IH]; intros st out Hst; cbn [chat].
  - split; [exact Hst |]. split; [reflexivity | constructor].
  - destruct (is_exit message) eqn:Hexit.
    + split; [exact Hst |]. exists [], message.
      repeat split; [exact Hexit | constructor].
    + pose (out1 := ((out ++ ["> "]) ++ [EmptyString])%list).
      change (print_line EmptyString (show_prompt "> " (oxycsbot_in st out)))
        with (oxycsbot_in st out1).
      destruct (oxycsbot_hooks_total st Hst) as (hook & Hlookup & Hhook).
      destruct (usable_items_tagged (lower message) (TAGS oxycsbot.instance) ∅
                  oxycsbot_items_usable) as [tags Htags].
      destruct (Hhook message tags out1) as (response & st' & E & Hst').
      assert (respond oxycsbot.respond_from_ message (oxycsbot_in st out1)
              = Return response (oxycsbot_in st' out1)) as ->.
      { unfold respond, bind, get, getattr, ret.
        cbn [state oxycsbot_in]. rewrite Hlookup.
        rewrite _get_tags_reads. cbn [TAGS oxycsbot_in]. rewrite Htags. exact E. }
      pose (out2 := ((out1 ++ ["oxycsbot" +:+ ": " +:+ response])
                     ++ [EmptyString])%list).
      specialize (IH st' out2 Hst').
      change (print_line EmptyString
                (print_line ("oxycsbot" +:+ ": " +:+ response)
                   (oxycsbot_in st' out1)))
        with (oxycsbot_in st' out2).
      destruct (chat oxycsbot.respond_from_ "oxycsbot" rest _) as [s u | s u | e s u].
      * destruct IH as (Hs & answered & word & -> & Hw & Hall).
        split; [exact Hs |]. exists (message :: answered), word.
        repeat split; [exact Hw | constructor; assumption].
      * destruct IH as (Hs & -> & Hall).
        split; [exact Hs |]. split; [reflexivity | constructor; assumption].
      * exact IH.
Qed.

(** X15: run as a script, the bot never ends with an uncaught exception,
    whatever is typed: it is built, and the loop either stops at the first
    exit word, or answers every line and exits at the end of the input;
    in both cases the engine is in a declared state. *)
Theorem main_never_crashes (console stdin : list string) :
  match main console stdin with
  | Ran (Stopped self unread) =>
      In (state self) oxycsbot.STATES
      /\ exists answered word,
           stdin = (answered ++ word :: unread)%list /\ is_exit word = true
           /\ Forall (fun message => is_exit message = false) answered
  | Ran (SystemExit self unread) =>
      In (state self) oxycsbot.STATES /\ unread = []
      /\ Forall (fun message => is_exit message = false) stdin
  | Ran (Uncaught _ _ _) | NotBuilt _ _ => False
  end.
Proof.
  unfold main. rewrite oxycsbot_new_any_console.
  assert (In "waiting" oxycsbot.STATES) as Hwaiting by (vm_compute; tauto).
  pose proof (oxycsbot_chat_ends_well stdin "waiting" console Hwaiting) as Hend.
  destruct (chat oxycsbot.respond_from_ "oxycsbot" stdin _) as [s u | s u | e s u];
    exact Hend.
Qed.

(** ** How [respond] fails, and tables put together *)

Section Respond.

Variable respond_from_ : string -> option response_hook.

(** X16: [respond] raises in three ways only.  The current state has no
    response hook: an AttributeError names the method, the matcher is not
    run and the engine is as it was.  The matcher raises: no hook is
    called and the engine is as it was.  Or the hook itself raises. *)
Theorem respond_raises_three_ways
    (message : string) (self self' : ChatBot) (e : exn) :
  respond respond_from_ message self = Raise e self' ->
  (respond_from_ (state self) = None
   /\ e = AttributeError ("respond_from_" +:+ state self) /\ self' = self)
  \/ (exists hook,
        respond_from_ (state self) = Some hook
        /\ ((tag_items (lower message) (TAGS self) ∅ = Err e /\ self' = self)
            \/ exists tags,
                 tag_items (lower message) (TAGS self) ∅ = Ok tags
                 /\ hook message tags self = Raise e self')).
Proof.
  unfold respond, bind at 1, get, getattr.
  destruct (respond_from_ (state self)) as [hook |] eqn:Hhook.
  - unfold bind, ret. rewrite _get_tags_reads.
    destruct (tag_items (lower message) (TAGS self) ∅) as [tags | e'] eqn:Htags.
    + intros H. right. exists hook. split; [reflexivity |]. right.
      exists tags. split; [reflexivity | exact H].
    + intros [= <- <-]. right. exists hook. split; [reflexivity |]. left. auto.
  - unfold bind, raise. intros [= <- <-]. left. auto.
Qed.

End Respond.

Lemma respond_raises_three_ways_witness :
  (oxycsbot.respond_from_ (state Stuck.busy) = None
   /\ AttributeError "respond_from_busy" = AttributeError ("respond_from_" +:+ state Stuck.busy)
   /\ Stuck.busy = Stuck.busy)
  \/ (exists hook,
        oxycsbot.respond_from_ (state Stuck.busy) = Some hook
        /\ ((tag_items (lower "hello") (TAGS Stuck.busy) ∅
             = Err (AttributeError "respond_from_busy") /\ Stuck.busy = Stuck.busy)
            \/ exists tags,
                 tag_items (lower "hello") (TAGS Stuck.busy) ∅ = Ok tags
                 /\ hook "hello" tags Stuck.busy
                    = Raise (AttributeError "respond_from_busy") Stuck.busy)).
Proof.
  apply (respond_raises_three_ways oxycsbot.respond_from_ "hello" Stuck.busy).
  reflexivity.
Defined.

(** X17: the counts of a table made of two parts are the sums of the
    counts of the parts: when [_get_tags] returns for the whole table, it
    returns for each part, and every tag counts as much as in the two
    parts together. *)
Theorem counts_of_joined_tables_add_up
    (msg : string) (part1 part2 : dict tagval) (counter : Counter) :
  tag_items msg (part1 ++ part2) ∅ = Ok counter ->
  exists counter1 counter2,
    tag_items msg part1 ∅ = Ok counter1
    /\ tag_items msg part2 ∅ = Ok counter2
    /\ forall tag, count counter tag = count counter1 tag + count counter2 tag.
Proof.
  intros H. pose proof (tag_items_count _ _ _ _ H) as Hcount.
  rewrite tag_items_app in H.
  destruct (tag_items msg part1 ∅) as [c1 |] eqn:E1; [| discriminate].
  destruct (tag_items_any_start _ _ _ _ H ∅) as [c2 E2].
  exists c1, c2. split; [reflexivity |]. split; [exact E2 |].
  intros tag.
  pose proof (tag_items_count _ _ _ _ E1 tag) as H1.
  pose proof (tag_items_count _ _ _ _ E2 tag) as H2.
  specialize (Hcount tag). rewrite tally_app in Hcount.
  assert (count (∅ : Counter) tag = 0) as Hzero
    by (unfold count; rewrite lookup_empty; reflexivity).
  lia.
Qed.

Lemma counts_of_joined_tables_add_up_witness :
  exists counter1 counter2,
    tag_items (lower "Hello, hi!") [("Hello", PyList ["hello"])] ∅ = Ok counter1
    /\ tag_items (lower "Hello, hi!") [("hi", PyList ["hello"; "short"])] ∅ = Ok counter2
    /\ forall tag,
         count ({[ "hello" := 2; "short" := 1 ]} : Counter) tag
         = count counter1 tag + count counter2 tag.
Proof.
  apply (counts_of_joined_tables_add_up (lower "Hello, hi!")
           [("Hello", PyList ["hello"])] [("hi", PyList ["hello"; "short"])]
           {[ "hello" := 2; "short" := 1 ]}).
  vm_compute. reflexivity.
Defined.
